(** * 3GPP power saving example (example/cell/power_saving/cell_power_saving_3gpp_main.c)

    A shallow embedding of the example's [callback] and of the body of the
    test function [exampleCellPowerSaving3gpp], and the properties of the
    negotiation workflow that the specification states about them.

    The example talks to the ubxlib network and cellular APIs, which live
    outside this file.  The embedding therefore runs the example against a
    scripted [collaborator]: the value every API call returns and the
    agreement callbacks that are delivered while the call is outstanding.
    What the example does is recorded as a chronological [trace] of API
    calls, log lines and callback entries; the only piece of program state
    besides the locals is the file-scope flag [g3gppPowerSavingSet].

    - [callback] runs on a context of the cellular API.  It is the only
      writer of the [volatile] flag, and the main task only reads the flag
      in the tests of lines 241, 246, 273 and 277, so a run is an
      interleaving of whole callback entries with the steps of the main
      task; the [point]s name the places where entries can fall.
    - [int32_t] values are integers of [Z].  The only arithmetic of the
      file is [x++] in the wait loop, which counts from 0 to at most 30.
    - The body of the test function is split where the source splits it:
      [session] is the workflow up to [uPortLog("### Done.\n")], and
      [test_cleanup] the lines for internal testing that the preprocessor
      may add after it; [exampleCellPowerSaving3gpp] is the one followed
      by the other. *)

From Stdlib Require Import ZArith List Bool Lia.
From Equations Require Import Equations.
From Equations.Prop Require Import Logic.
Import ListNotations.
Local Open Scope Z_scope.

(* ----------------------------------------------------------------- *)
(** ** Compile-time macros *)

(** [#define ACTIVE_TIME_SECONDS 60] *)
Definition ACTIVE_TIME_SECONDS : Z := 60.

(** [#define PERIODIC_WAKEUP_SECONDS (3600 * 4)] *)
Definition PERIODIC_WAKEUP_SECONDS : Z := 3600 * 4.

(** The preprocessor symbols that select which lines after
    [uPortLog("### Done.\n")] are compiled. *)
Record build := mkBuild {
  (** [defined(U_CFG_TEST_CELL_MODULE_TYPE) &&
       !defined(U_CFG_CELL_DISABLE_UART_POWER_SAVING)] *)
  test_cell_module : bool;
  (** [defined(U_PORT_TEST_ASSERT)] *)
  test_assert : bool
}.

(* ----------------------------------------------------------------- *)
(** ** Observable behaviour *)

(** The arguments of one invocation of [callback] by the cellular API
    ([pParameter] is the [NULL] given at registration). *)
Record delivery := mkDelivery {
  networkHandle : Z;
  onNotOff : bool;
  activeTimeSeconds : Z;
  periodicWakeupSeconds : Z
}.

(** The [uPortLog] lines of the file, in source order. *)
Inductive message :=
| Msg_power_saving_is (on : bool) (active periodic : Z)
| Msg_added_network (handle : Z)
| Msg_requesting (active periodic : Z)
| Msg_bringing_up
| Msg_agreed
| Msg_unable_to_switch
| Msg_taking_down
| Msg_unable_to_bring_up
| Msg_not_supported
| Msg_unable_to_set_rat (rat : Z)
| Msg_done.

(** One entry of the trace: a call into ubxlib with its arguments, a log
    line, an entry into [callback], or the internal-test assertion.  The
    arguments of [uNetworkAdd] are the constants [U_NETWORK_TYPE_CELL] and
    [&gConfigCell], the callback registered is always [callback] with a
    [NULL] parameter, and [uCellPwrReboot] is always given [NULL]; they
    are left out. *)
Inductive event :=
| Ev_uPortInit
| Ev_uNetworkInit
| Ev_uNetworkAdd
| Ev_uCellPwrSet3gppPowerSavingCallback (handle : Z)
| Ev_uCellCfgGetRat (handle rank : Z)
| Ev_uCellCfgSetRatRank (handle rat rank : Z)
| Ev_uCellPwrSetRequested3gppPowerSaving
    (handle rat : Z) (on : bool) (active periodic : Z)
| Ev_uCellPwrRebootIsRequired (handle : Z)
| Ev_uCellPwrReboot (handle : Z)
| Ev_uNetworkUp (handle : Z)
| Ev_uPortTaskBlock (ms : Z)
| Ev_uNetworkDown (handle : Z)
| Ev_uNetworkDeinit
| Ev_uPortDeinit
| Ev_uPortLog (m : message)
| Ev_callback (d : delivery)
| Ev_U_PORT_TEST_ASSERT (condition : bool).

Definition delivery_eq_dec (a b : delivery) : {a = b} + {a <> b}.
Proof. decide equality; auto using Z.eq_dec, bool_dec. Defined.

Definition message_eq_dec (a b : message) : {a = b} + {a <> b}.
Proof. decide equality; auto using Z.eq_dec, bool_dec. Defined.

Definition event_eq_dec (a b : event) : {a = b} + {a <> b}.
Proof.
  decide equality;
    auto using Z.eq_dec, bool_dec, message_eq_dec, delivery_eq_dec.
Defined.

(** How often the event [e] occurs in a trace. *)
Definition occurrences (e : event) (t : list event) : nat :=
  count_occ event_eq_dec t e.

(** Calls into ubxlib, as opposed to log lines, callback entries and the
    test assertion. *)
Definition is_api (e : event) : bool :=
  match e with
  | Ev_uPortLog _ | Ev_callback _ | Ev_U_PORT_TEST_ASSERT _ => false
  | _ => true
  end.

Definition api_calls (t : list event) : list event := filter is_api t.

(** The callback invocations recorded in a trace, in order. *)
Definition delivered (t : list event) : list delivery :=
  flat_map (fun e => match e with Ev_callback d => [d] | _ => [] end) t.

Definition is_uPortTaskBlock (e : event) : bool :=
  match e with Ev_uPortTaskBlock _ => true | _ => false end.

(** The number of suspend cycles in a trace. *)
Definition suspend_cycles (t : list event) : nat :=
  length (filter is_uPortTaskBlock t).

(* ----------------------------------------------------------------- *)
(** ** The collaborator *)

(** The places of the workflow at which the cellular API can run
    [callback]: while one of the calls made after the registration is
    outstanding, and between the last test of the wait loop and the test
    that follows it.  [At_uPortTaskBlock x] is the suspend made while the
    loop counter reads [x]. *)
Inductive point :=
| At_uCellPwrSet3gppPowerSavingCallback
| At_uCellCfgGetRat
| At_uCellCfgSetRatRank
| At_uCellPwrSetRequested3gppPowerSaving
| At_uCellPwrRebootIsRequired
| At_uCellPwrReboot
| At_uNetworkUp
| At_uPortTaskBlock (x : Z)
| After_wait
| At_uNetworkDown
| At_uNetworkDeinit.

(** One run of the ubxlib side: what each call returns and which
    callbacks are delivered where.  The [cleanup_] fields answer the
    second [uNetworkAdd] and [uCellPwrRebootIsRequired] of the
    internal-test clean-up. *)
Record collaborator := mkCollaborator {
  ret_uNetworkAdd : Z;
  ret_uCellCfgGetRat : Z;
  ret_uCellCfgSetRatRank : Z;
  ret_uCellPwrSetRequested3gppPowerSaving : Z;
  ret_uCellPwrRebootIsRequired : bool;
  ret_uNetworkUp : Z;
  deliveries : point -> list delivery;
  cleanup_uNetworkAdd : Z;
  cleanup_uCellPwrRebootIsRequired : bool
}.

(* ----------------------------------------------------------------- *)
(** ** Program state and the monad the example runs in *)

Record state := mkState {
  (** [static volatile bool g3gppPowerSavingSet] *)
  g3gppPowerSavingSet : bool;
  trace : list event
}.

(** [static volatile bool g3gppPowerSavingSet = false;] and nothing done
    yet. *)
Definition initial_state : state :=
  {| g3gppPowerSavingSet := false; trace := [] |}.

(** The state in which the test function is entered, the flag reading
    [set]: [false] in a fresh process. *)
Definition entry (set : bool) : state :=
  {| g3gppPowerSavingSet := set; trace := [] |}.

Definition M (A : Type) : Type := state -> A * state.

Definition ret {A} (a : A) : M A := fun s => (a, s).

Definition bind {A B} (c : M A) (k : A -> M B) : M B :=
  fun s => let (a, s') := c s in k a s'.

Declare Scope m_scope.
Delimit Scope m_scope with M.
Notation "x <- c ;; k" := (bind c (fun x => k))
  (at level 61, c at next level, right associativity) : m_scope.
Notation "c ;; k" := (bind c (fun _ => k))
  (at level 61, right associativity) : m_scope.
Local Open Scope m_scope.

Definition emit (e : event) : M unit :=
  fun s => (tt, {| g3gppPowerSavingSet := g3gppPowerSavingSet s;
                   trace := trace s ++ [e] |}).

Definition read_g3gppPowerSavingSet : M bool :=
  fun s => (g3gppPowerSavingSet s, s).

Definition write_g3gppPowerSavingSet (b : bool) : M unit :=
  fun s => (tt, {| g3gppPowerSavingSet := b; trace := trace s |}).

Definition uPortLog (m : message) : M unit := emit (Ev_uPortLog m).

(* ----------------------------------------------------------------- *)
(** ** [callback] *)

(** [static void callback(int32_t networkHandle, bool onNotOff,
      int32_t activeTimeSeconds, int32_t periodicWakeupSeconds,
      void *pParameter)] *)
Definition callback (networkHandle : Z) (onNotOff : bool)
    (activeTimeSeconds periodicWakeupSeconds : Z) : M unit :=
  uPortLog (Msg_power_saving_is onNotOff activeTimeSeconds
              periodicWakeupSeconds) ;;
  if onNotOff && (activeTimeSeconds >=? ACTIVE_TIME_SECONDS) &&
     (periodicWakeupSeconds >=? PERIODIC_WAKEUP_SECONDS)
  then write_g3gppPowerSavingSet true
  else ret tt.

(** The cellular API entering [callback] with the arguments [d]. *)
Definition deliver (d : delivery) : M unit :=
  emit (Ev_callback d) ;;
  callback (networkHandle d) (onNotOff d) (activeTimeSeconds d)
    (periodicWakeupSeconds d).

(** A sequence of deliveries, one after the other. *)
Fixpoint notify (l : list delivery) : M unit :=
  match l with
  | [] => ret tt
  | d :: l' => deliver d ;; notify l'
  end.

(** The test [callback] makes on its arguments. *)
Definition qualifies (d : delivery) : bool :=
  onNotOff d && (activeTimeSeconds d >=? ACTIVE_TIME_SECONDS) &&
  (periodicWakeupSeconds d >=? PERIODIC_WAKEUP_SECONDS).

(** What one entry into [callback] adds to the trace. *)
Definition upcall (d : delivery) : list event :=
  [Ev_callback d;
   Ev_uPortLog (Msg_power_saving_is (onNotOff d) (activeTimeSeconds d)
                  (periodicWakeupSeconds d))].

Definition upcalls (l : list delivery) : list event := flat_map upcall l.

(** How a session ended, as the log reports it. *)
Inductive outcome :=
| RatError
| UnsupportedError
| NetworkBringUpError
| Agreed
| TimedOut.

Definition outcome_of (e : event) : list outcome :=
  match e with
  | Ev_uPortLog Msg_agreed => [Agreed]
  | Ev_uPortLog Msg_unable_to_switch => [TimedOut]
  | Ev_uPortLog Msg_unable_to_bring_up => [NetworkBringUpError]
  | Ev_uPortLog Msg_not_supported => [UnsupportedError]
  | Ev_uPortLog (Msg_unable_to_set_rat _) => [RatError]
  | _ => []
  end.

(** The outcomes logged in a trace, in order. *)
Definition outcomes (t : list event) : list outcome := flat_map outcome_of t.

(** [s'] is reached from [s] by adding to the trace and by setting the
    flag only where an added callback entry passes the test. *)
Definition grows (s s' : state) : Prop :=
  exists t, trace s' = trace s ++ t /\
            g3gppPowerSavingSet s'
            = g3gppPowerSavingSet s || existsb qualifies (delivered t).

(** A computation every run of which [grows] the state. *)
Definition monotone {A} (c : M A) : Prop := forall s, grows s (snd (c s)).

Definition not_callback (e : event) : bool :=
  match e with Ev_callback _ => false | _ => true end.

(** The iterations the wait loop can still make when its counter reads
    [x]: the measure on which the loop terminates. *)
Definition budget_left (x : Z) : nat := Z.to_nat (30 - x).
Arguments budget_left : simpl never.


(** Events that neither an entry into [callback] nor a suspend of the
    wait loop adds to the trace. *)
Definition plain (e : event) : bool :=
  match e with
  | Ev_callback _ | Ev_uPortLog (Msg_power_saving_is _ _ _)
  | Ev_uPortTaskBlock _ => false
  | _ => true
  end.

(** The network handle a call into ubxlib is made on, if it takes one. *)
Definition handle_of (e : event) : option Z :=
  match e with
  | Ev_uCellPwrSet3gppPowerSavingCallback h | Ev_uCellCfgGetRat h _
  | Ev_uCellCfgSetRatRank h _ _
  | Ev_uCellPwrSetRequested3gppPowerSaving h _ _ _ _
  | Ev_uCellPwrRebootIsRequired h | Ev_uCellPwrReboot h | Ev_uNetworkUp h
  | Ev_uNetworkDown h => Some h
  | _ => None
  end.

(** The values [callback] has logged, in order. *)
Definition reported (t : list event) : list (bool * Z * Z) :=
  flat_map (fun e => match e with
                     | Ev_uPortLog (Msg_power_saving_is on active periodic) =>
                         [(on, active, periodic)]
                     | _ => []
                     end) t.

(** The log lines of [callback] in a trace are the values of its entries
    in that trace, one line for each entry, in order. *)
Definition logs_every_report (t : list event) : Prop :=
  reported t
  = map (fun d => (onNotOff d, activeTimeSeconds d, periodicWakeupSeconds d))
        (delivered t).

(* ----------------------------------------------------------------- *)
(** ** Sample collaborators *)

(** A value for [U_CELL_NET_RAT_CATM1] in the samples. *)
Definition sample_rat : Z := 10.

(** One delivery that passes the test of [callback], and one that does
    not (the active time is a second short). *)
Definition agreeing : delivery := mkDelivery 7 true 60 14400.
Definition disagreeing : delivery := mkDelivery 7 true 59 14400.

(** Every call succeeds, no reboot is needed, and the network never
    reports: the session times out. *)
Definition silent_network : collaborator :=
  mkCollaborator 7 sample_rat 0 0 false 0 (fun _ => []) 8 false.

(** Every call succeeds and a reboot is needed; the network reports
    values that fall short while [uNetworkUp] is outstanding and agreeing
    values during the fifth suspend. *)
Definition network_agreeing_at_fifth_suspend : collaborator :=
  mkCollaborator 7 sample_rat 0 0 true 0
    (fun p => match p with
              | At_uNetworkUp => [disagreeing]
              | At_uPortTaskBlock 4 => [agreeing]
              | _ => []
              end) 8 false.

(** Every call succeeds, and the only report, of agreeing values, comes
    while [uNetworkDown] is outstanding. *)
Definition network_agreeing_late : collaborator :=
  mkCollaborator 7 sample_rat 0 0 false 0
    (fun p => match p with At_uNetworkDown => [agreeing] | _ => [] end)
    8 false.

(** The module is on another RAT and refuses the rank change. *)
Definition network_refusing_rat : collaborator :=
  mkCollaborator 7 7 (-5) 0 false 0 (fun _ => []) 8 false.

(** [uNetworkUp] fails. *)
Definition network_failing_bring_up : collaborator :=
  mkCollaborator 7 sample_rat 0 0 false (-1) (fun _ => []) 8 false.

(* ----------------------------------------------------------------- *)
(** ** The example, against one collaborator *)

Section Example.

(** The value of [U_CELL_NET_RAT_CATM1] in [u_cell_net.h]. *)
Variable U_CELL_NET_RAT_CATM1 : Z.

Variable cfg : build.
Variable net : collaborator.

(** [#define MY_RAT U_CELL_NET_RAT_CATM1] *)
Definition MY_RAT : Z := U_CELL_NET_RAT_CATM1.

(** A call into ubxlib during which the callbacks scripted for [p] are
    delivered. *)
Definition call (e : event) (p : point) : M unit :=
  emit e ;; notify (deliveries net p).

Definition uPortInit : M unit := emit Ev_uPortInit.

Definition uNetworkInit : M unit := emit Ev_uNetworkInit.

Definition uNetworkAdd : M Z :=
  emit Ev_uNetworkAdd ;; ret (ret_uNetworkAdd net).

Definition uCellPwrSet3gppPowerSavingCallback (handle : Z) : M unit :=
  call (Ev_uCellPwrSet3gppPowerSavingCallback handle)
       At_uCellPwrSet3gppPowerSavingCallback.

Definition uCellCfgGetRat (handle rank : Z) : M Z :=
  call (Ev_uCellCfgGetRat handle rank) At_uCellCfgGetRat ;;
  ret (ret_uCellCfgGetRat net).

Definition uCellCfgSetRatRank (handle rat rank : Z) : M Z :=
  call (Ev_uCellCfgSetRatRank handle rat rank) At_uCellCfgSetRatRank ;;
  ret (ret_uCellCfgSetRatRank net).

Definition uCellPwrSetRequested3gppPowerSaving (handle rat : Z) (on : bool)
    (active periodic : Z) : M Z :=
  call (Ev_uCellPwrSetRequested3gppPowerSaving handle rat on active periodic)
       At_uCellPwrSetRequested3gppPowerSaving ;;
  ret (ret_uCellPwrSetRequested3gppPowerSaving net).

Definition uCellPwrRebootIsRequired (handle : Z) : M bool :=
  call (Ev_uCellPwrRebootIsRequired handle) At_uCellPwrRebootIsRequired ;;
  ret (ret_uCellPwrRebootIsRequired net).

Definition uCellPwrReboot (handle : Z) : M unit :=
  call (Ev_uCellPwrReboot handle) At_uCellPwrReboot.

Definition uNetworkUp (handle : Z) : M Z :=
  call (Ev_uNetworkUp handle) At_uNetworkUp ;;
  ret (ret_uNetworkUp net).

(** [uPortTaskBlock(ms)], called while the loop counter reads [x]. *)
Definition uPortTaskBlock (ms x : Z) : M unit :=
  call (Ev_uPortTaskBlock ms) (At_uPortTaskBlock x).

Definition uNetworkDown (handle : Z) : M unit :=
  call (Ev_uNetworkDown handle) At_uNetworkDown.

Definition uNetworkDeinit : M unit :=
  call Ev_uNetworkDeinit At_uNetworkDeinit.

Definition uPortDeinit : M unit := emit Ev_uPortDeinit.

(** [while (!g3gppPowerSavingSet && (x < 30)) { uPortTaskBlock(1000); x++; }]
    The result is the counter [x] and the state when the loop is left. *)
Equations? wait (x : Z) (s : state) : Z * state
  by wf (budget_left x) lt :=
  wait x s with inspect (negb (g3gppPowerSavingSet s) && (x <? 30)) := {
    | exist _ true _ => wait (x + 1) (snd (uPortTaskBlock 1000 x s)) ;
    | exist _ false _ => (x, s) }.
Proof.
  apply andb_prop in e. destruct e as [_ e]. apply Z.ltb_lt in e.
  unfold budget_left. lia.
Qed.

(** The negotiation workflow: the body of [exampleCellPowerSaving3gpp] up
    to and including [uPortLog("### Done.\n")].  The result is the local
    [x], which the lines that follow read. *)
Definition session : M Z :=
  let onMyRat := true in
  let x := -1 in
  uPortInit ;;
  uNetworkInit ;;
  networkHandle <- uNetworkAdd ;;
  uPortLog (Msg_added_network networkHandle) ;;
  uCellPwrSet3gppPowerSavingCallback networkHandle ;;
  rat <- uCellCfgGetRat networkHandle 0 ;;
  onMyRat <- (if negb (rat =? MY_RAT) then
                r <- uCellCfgSetRatRank networkHandle MY_RAT 0 ;;
                ret (if negb (r =? 0) then false else onMyRat)
              else ret onMyRat) ;;
  x <- (if onMyRat : bool then
          uPortLog (Msg_requesting ACTIVE_TIME_SECONDS
                      PERIODIC_WAKEUP_SECONDS) ;;
          x <- uCellPwrSetRequested3gppPowerSaving networkHandle MY_RAT true
                 ACTIVE_TIME_SECONDS PERIODIC_WAKEUP_SECONDS ;;
          if x =? 0 then
            required <- uCellPwrRebootIsRequired networkHandle ;;
            (if required : bool then uCellPwrReboot networkHandle
             else ret tt) ;;
            uPortLog Msg_bringing_up ;;
            up <- uNetworkUp networkHandle ;;
            if up =? 0 then
              x <- wait x ;;
              notify (deliveries net After_wait) ;;
              set <- read_g3gppPowerSavingSet ;;
              (if set : bool then uPortLog Msg_agreed
               else uPortLog Msg_unable_to_switch) ;;
              uPortLog Msg_taking_down ;;
              uNetworkDown networkHandle ;;
              ret x
            else
              uPortLog Msg_unable_to_bring_up ;;
              ret x
          else
            uPortLog Msg_not_supported ;;
            ret x
        else
          uPortLog (Msg_unable_to_set_rat MY_RAT) ;;
          ret x) ;;
  uNetworkDeinit ;;
  uPortDeinit ;;
  uPortLog Msg_done ;;
  ret x.

(** [EXAMPLE_FINAL_STATE(x)]: [U_PORT_TEST_ASSERT(x);] when that macro is
    defined, nothing otherwise. *)
Definition EXAMPLE_FINAL_STATE (condition : bool) : M unit :=
  if test_assert cfg then emit (Ev_U_PORT_TEST_ASSERT condition)
  else ret tt.

(** The lines after [uPortLog("### Done.\n")], for internal testing only:
    the final-state assertion and, when the flag is set, switching 3GPP
    power saving off again on a freshly added network.  No callback is
    registered on that network, so nothing is delivered here.  The
    assertion can only fail with the flag clear, when the lines after it
    do nothing, so a failing assertion that ends the test function at
    once leaves the same trace. *)
Definition test_cleanup (x : Z) : M unit :=
  if test_cell_module cfg then
    set <- read_g3gppPowerSavingSet ;;
    EXAMPLE_FINAL_STATE ((x <? 0) || set) ;;
    if test_assert cfg then
      set <- read_g3gppPowerSavingSet ;;
      if set : bool then
        uPortInit ;;
        uNetworkInit ;;
        networkHandle <- (emit Ev_uNetworkAdd ;;
                          ret (cleanup_uNetworkAdd net)) ;;
        emit (Ev_uCellPwrSetRequested3gppPowerSaving
                networkHandle MY_RAT false (-1) (-1)) ;;
        required <- (emit (Ev_uCellPwrRebootIsRequired networkHandle) ;;
                     ret (cleanup_uCellPwrRebootIsRequired net)) ;;
        (if required : bool then emit (Ev_uCellPwrReboot networkHandle)
         else ret tt) ;;
        emit Ev_uNetworkDeinit ;;
        uPortDeinit
      else ret tt
    else ret tt
  else ret tt.

(** [U_PORT_TEST_FUNCTION("[example]", "exampleCellPowerSaving3gpp")] *)
Definition exampleCellPowerSaving3gpp : M unit :=
  x <- session ;;
  test_cleanup x.

(** *** Closed forms used in the proofs *)

(** Does a delivery scripted for [p] pass the test of [callback]? *)
Definition agreed_at (p : point) : bool :=
  existsb qualifies (deliveries net p).

(** Does one of the [n] suspends made from counter [x] on see such a
    delivery? *)
Fixpoint agreed_during (x : Z) (n : nat) : bool :=
  match n with
  | O => false
  | S n' => agreed_at (At_uPortTaskBlock x) || agreed_during (x + 1) n'
  end.

(** The trace of [n] iterations of the wait loop from counter [x] on. *)
Fixpoint cycles_trace (x : Z) (n : nat) : list event :=
  match n with
  | O => []
  | S n' => Ev_uPortTaskBlock 1000
            :: upcalls (deliveries net (At_uPortTaskBlock x))
            ++ cycles_trace (x + 1) n'
  end.

(** The RAT is already [MY_RAT], or could be made so. *)
Definition on_my_rat : bool :=
  (ret_uCellCfgGetRat net =? MY_RAT) || (ret_uCellCfgSetRatRank net =? 0).

(** The power-saving request is made and returns 0. *)
Definition request_ok : bool :=
  on_my_rat && (ret_uCellPwrSetRequested3gppPowerSaving net =? 0).

(** The wait loop is reached: the request returned 0 and so did
    [uNetworkUp]. *)
Definition enters_wait : bool := request_ok && (ret_uNetworkUp net =? 0).

(** The flag when the wait loop is reached, from its value [set] at the
    start of the session. *)
Definition set_before_wait (set : bool) : bool :=
  set || agreed_at At_uCellPwrSet3gppPowerSavingCallback
      || agreed_at At_uCellCfgGetRat
      || (negb (ret_uCellCfgGetRat net =? MY_RAT)
          && agreed_at At_uCellCfgSetRatRank)
      || agreed_at At_uCellPwrSetRequested3gppPowerSaving
      || agreed_at At_uCellPwrRebootIsRequired
      || (ret_uCellPwrRebootIsRequired net && agreed_at At_uCellPwrReboot)
      || agreed_at At_uNetworkUp.

(** The trace of a session that starts with the flag reading [set] and
    whose wait loop, if reached, makes [n] iterations. *)
Definition session_events (set : bool) (n : nat) : list event :=
  let h := ret_uNetworkAdd net in
  [Ev_uPortInit; Ev_uNetworkInit; Ev_uNetworkAdd;
   Ev_uPortLog (Msg_added_network h)]
  ++ Ev_uCellPwrSet3gppPowerSavingCallback h
     :: upcalls (deliveries net At_uCellPwrSet3gppPowerSavingCallback)
  ++ Ev_uCellCfgGetRat h 0 :: upcalls (deliveries net At_uCellCfgGetRat)
  ++ (if ret_uCellCfgGetRat net =? MY_RAT then []
      else Ev_uCellCfgSetRatRank h MY_RAT 0
           :: upcalls (deliveries net At_uCellCfgSetRatRank))
  ++ (if on_my_rat then
        Ev_uPortLog (Msg_requesting ACTIVE_TIME_SECONDS
                       PERIODIC_WAKEUP_SECONDS)
        :: Ev_uCellPwrSetRequested3gppPowerSaving h MY_RAT true
             ACTIVE_TIME_SECONDS PERIODIC_WAKEUP_SECONDS
        :: upcalls (deliveries net At_uCellPwrSetRequested3gppPowerSaving)
        ++ (if ret_uCellPwrSetRequested3gppPowerSaving net =? 0 then
              Ev_uCellPwrRebootIsRequired h
              :: upcalls (deliveries net At_uCellPwrRebootIsRequired)
              ++ (if ret_uCellPwrRebootIsRequired net then
                    Ev_uCellPwrReboot h
                    :: upcalls (deliveries net At_uCellPwrReboot)
                  else [])
              ++ Ev_uPortLog Msg_bringing_up
              :: Ev_uNetworkUp h :: upcalls (deliveries net At_uNetworkUp)
              ++ (if ret_uNetworkUp net =? 0 then
                    cycles_trace 0 n
                    ++ upcalls (deliveries net After_wait)
                    ++ Ev_uPortLog
                         (if set_before_wait set || agreed_during 0 n
                             || agreed_at After_wait
                          then Msg_agreed else Msg_unable_to_switch)
                    :: Ev_uPortLog Msg_taking_down
                    :: Ev_uNetworkDown h
                    :: upcalls (deliveries net At_uNetworkDown)
                  else [Ev_uPortLog Msg_unable_to_bring_up])
            else [Ev_uPortLog Msg_not_supported])
      else [Ev_uPortLog (Msg_unable_to_set_rat MY_RAT)])
  ++ Ev_uNetworkDeinit :: upcalls (deliveries net At_uNetworkDeinit)
  ++ [Ev_uPortDeinit; Ev_uPortLog Msg_done].

(** The local [x] at the end of such a session. *)
Definition session_x (n : nat) : Z :=
  if on_my_rat then
    if enters_wait then Z.of_nat n
    else ret_uCellPwrSetRequested3gppPowerSaving net
  else -1.

(** The calls into ubxlib that such a session makes, in order. *)
Definition session_calls (n : nat) : list event :=
  let h := ret_uNetworkAdd net in
  [Ev_uPortInit; Ev_uNetworkInit; Ev_uNetworkAdd;
   Ev_uCellPwrSet3gppPowerSavingCallback h; Ev_uCellCfgGetRat h 0]
  ++ (if ret_uCellCfgGetRat net =? MY_RAT then []
      else [Ev_uCellCfgSetRatRank h MY_RAT 0])
  ++ (if on_my_rat then
        Ev_uCellPwrSetRequested3gppPowerSaving h MY_RAT true
          ACTIVE_TIME_SECONDS PERIODIC_WAKEUP_SECONDS
        :: (if ret_uCellPwrSetRequested3gppPowerSaving net =? 0 then
              Ev_uCellPwrRebootIsRequired h
              :: (if ret_uCellPwrRebootIsRequired net
                  then [Ev_uCellPwrReboot h] else [])
              ++ Ev_uNetworkUp h
              :: (if ret_uNetworkUp net =? 0 then
                    repeat (Ev_uPortTaskBlock 1000) n ++ [Ev_uNetworkDown h]
                  else [])
            else [])
      else [])
  ++ [Ev_uNetworkDeinit; Ev_uPortDeinit].

(** The outcome such a session logs. *)
Definition session_outcome (set : bool) (n : nat) : outcome :=
  if on_my_rat then
    if ret_uCellPwrSetRequested3gppPowerSaving net =? 0 then
      if ret_uNetworkUp net =? 0 then
        if set_before_wait set || agreed_during 0 n || agreed_at After_wait
        then Agreed else TimedOut
      else NetworkBringUpError
    else UnsupportedError
  else RatError.

(** The calls into ubxlib that the internal-test lines make when they
    find the flag set. *)
Definition cleanup_calls : list event :=
  let h := cleanup_uNetworkAdd net in
  [Ev_uPortInit; Ev_uNetworkInit; Ev_uNetworkAdd;
   Ev_uCellPwrSetRequested3gppPowerSaving h MY_RAT false (-1) (-1);
   Ev_uCellPwrRebootIsRequired h]
  ++ (if cleanup_uCellPwrRebootIsRequired net
      then [Ev_uCellPwrReboot h] else [])
  ++ [Ev_uNetworkDeinit; Ev_uPortDeinit].

(** The wait loop is reached with the flag clear (the session having been
    entered with the flag reading [set]), no delivery during the first
    four suspends passes the test of [callback], and one during the fifth
    does. *)
Definition set_at_fifth_suspend (set : bool) : Prop :=
  enters_wait = true /\
  set_before_wait set = false /\
  agreed_during 0 4 = false /\
  agreed_at (At_uPortTaskBlock 4) = true.

(* ----------------------------------------------------------------- *)
(** ** Running the monad *)

Lemma bind_run {A B} (c : M A) (k : A -> M B) (s : state) :
  bind c k s = k (fst (c s)) (snd (c s)).
Proof. unfold bind. destruct (c s). reflexivity. Qed.

Lemma emit_trace e s : trace (snd (emit e s)) = trace s ++ [e].
Proof. reflexivity. Qed.

Lemma emit_flag e s :
  g3gppPowerSavingSet (snd (emit e s)) = g3gppPowerSavingSet s.
Proof. reflexivity. Qed.

Lemma callback_trace h on a p s :
  trace (snd (callback h on a p s))
  = trace s ++ [Ev_uPortLog (Msg_power_saving_is on a p)].
Proof.
  unfold callback. rewrite bind_run.
  destruct (on && (a >=? _) && (p >=? _)); reflexivity.
Qed.

Lemma callback_flag h on a p s :
  g3gppPowerSavingSet (snd (callback h on a p s))
  = g3gppPowerSavingSet s
    || (on && (a >=? ACTIVE_TIME_SECONDS) && (p >=? PERIODIC_WAKEUP_SECONDS)).
Proof.
  unfold callback. rewrite bind_run.
  destruct (on && (a >=? _) && (p >=? _)); simpl.
  - now rewrite orb_true_r.
  - now rewrite orb_false_r.
Qed.

Lemma deliver_trace d s : trace (snd (deliver d s)) = trace s ++ upcall d.
Proof.
  unfold deliver. rewrite bind_run, callback_trace, emit_trace.
  now rewrite <- app_assoc.
Qed.

Lemma deliver_flag d s :
  g3gppPowerSavingSet (snd (deliver d s))
  = g3gppPowerSavingSet s || qualifies d.
Proof. unfold deliver. now rewrite bind_run, callback_flag, emit_flag. Qed.

Lemma notify_trace l s : trace (snd (notify l s)) = trace s ++ upcalls l.
Proof.
  revert s. induction l as [|d l IH]; intros s; simpl.
  - now rewrite app_nil_r.
  - rewrite bind_run, IH, deliver_trace. now rewrite <- app_assoc.
Qed.

Lemma notify_flag l s :
  g3gppPowerSavingSet (snd (notify l s))
  = g3gppPowerSavingSet s || existsb qualifies l.
Proof.
  revert s. induction l as [|d l IH]; intros s; simpl.
  - now rewrite orb_false_r.
  - rewrite bind_run, IH, deliver_flag. now rewrite orb_assoc.
Qed.

Lemma call_trace e p s :
  trace (snd (call e p s)) = trace s ++ e :: upcalls (deliveries net p).
Proof.
  unfold call. rewrite bind_run, notify_trace, emit_trace.
  now rewrite <- app_assoc.
Qed.

Lemma call_flag e p s :
  g3gppPowerSavingSet (snd (call e p s))
  = g3gppPowerSavingSet s || agreed_at p.
Proof. unfold call. now rewrite bind_run, notify_flag, emit_flag. Qed.

(** The loop, one test at a time. *)
Lemma wait_step x s :
  wait x s = if negb (g3gppPowerSavingSet s) && (x <? 30)
             then wait (x + 1) (snd (uPortTaskBlock 1000 x s))
             else (x, s).
Proof.
  rewrite wait_equation_1.
  destruct (inspect (negb (g3gppPowerSavingSet s) && (x <? 30)))
    as [[] e]; simp wait; rewrite e; reflexivity.
Qed.

Lemma uPortTaskBlock_trace ms x s :
  trace (snd (uPortTaskBlock ms x s))
  = trace s ++ Ev_uPortTaskBlock ms
               :: upcalls (deliveries net (At_uPortTaskBlock x)).
Proof. apply call_trace. Qed.

Lemma uPortTaskBlock_flag ms x s :
  g3gppPowerSavingSet (snd (uPortTaskBlock ms x s))
  = g3gppPowerSavingSet s || agreed_at (At_uPortTaskBlock x).
Proof. apply call_flag. Qed.

Lemma agreed_during_snoc x n :
  agreed_during x (S n)
  = agreed_during x n || agreed_at (At_uPortTaskBlock (x + Z.of_nat n)).
Proof.
  revert x. induction n as [|n IH]; intros x.
  - simpl. now rewrite Z.add_0_r, orb_false_r.
  - change (agreed_during x (S (S n)))
      with (agreed_at (At_uPortTaskBlock x) || agreed_during (x + 1) (S n)).
    rewrite IH. simpl. rewrite orb_assoc.
    replace (x + 1 + Z.of_nat n) with (x + Z.of_nat (S n)) by lia.
    reflexivity.
Qed.

Lemma agreed_during_le x k j :
  agreed_during x k = false -> (j <= k)%nat -> agreed_during x j = false.
Proof.
  induction k as [|k IH]; intros Hk Hj.
  - now replace j with O by lia.
  - destruct (Nat.eq_dec j (S k)) as [->|Hne]; [exact Hk |].
    rewrite agreed_during_snoc in Hk. apply orb_false_elim in Hk.
    apply IH; [tauto | lia].
Qed.

(** What the wait loop does, from any counter and state: it makes some
    number [n] of iterations, each one entered with the flag clear and
    the counter below 30, and is left with the loop test false. *)
Lemma wait_spec x s :
  exists n : nat,
    fst (wait x s) = x + Z.of_nat n /\
    trace (snd (wait x s)) = trace s ++ cycles_trace x n /\
    g3gppPowerSavingSet (snd (wait x s))
    = g3gppPowerSavingSet s || agreed_during x n /\
    negb (g3gppPowerSavingSet (snd (wait x s))) && (fst (wait x s) <? 30)
    = false /\
    (forall k, (k < n)%nat ->
       g3gppPowerSavingSet s || agreed_during x k = false /\
       x + Z.of_nat k < 30).
Proof.
  remember (budget_left x) as m eqn:Hm.
  revert x s Hm.
  induction m as [m IH] using lt_wf_ind. intros x s Hm.
  rewrite wait_step.
  destruct (negb (g3gppPowerSavingSet s) && (x <? 30)) eqn:Htest.
  - apply andb_prop in Htest. destruct Htest as [Hclear Hlt].
    apply negb_true_iff in Hclear. apply Z.ltb_lt in Hlt.
    destruct (IH (budget_left (x + 1))) with
      (x := x + 1) (s := snd (uPortTaskBlock 1000 x s))
      as (n & Hx & Ht & Hf & Hexit & Hiter);
      [ subst m; unfold budget_left; lia | reflexivity | ].
    exists (S n). repeat split.
    + rewrite Hx. lia.
    + rewrite Ht, uPortTaskBlock_trace. simpl.
      now rewrite <- app_assoc.
    + rewrite Hf, uPortTaskBlock_flag. simpl. now rewrite orb_assoc.
    + exact Hexit.
    + destruct k as [|k]; simpl.
      * now rewrite Hclear.
      * destruct (Hiter k) as [Hk _]; [lia|].
        rewrite uPortTaskBlock_flag in Hk. now rewrite orb_assoc.
    + destruct k as [|k]; [lia|].
      destruct (Hiter k) as [_ Hk]; lia.
  - exists O. simpl. repeat split.
    + lia.
    + now rewrite app_nil_r.
    + now rewrite orb_false_r.
    + exact Htest.
    + lia.
    + lia.
Qed.

Ltac run_step :=
  first [ rewrite bind_run
        | progress cbn beta iota delta
            [ret fst snd read_g3gppPowerSavingSet] ].

Ltac push_trace :=
  repeat first [ rewrite emit_trace | rewrite call_trace
               | rewrite notify_trace ];
  repeat first [ rewrite <- app_assoc | progress cbn [app] ].

Ltac push_flag :=
  repeat first [ rewrite emit_flag | rewrite call_flag
               | rewrite notify_flag ].

(** The session in closed form: its trace and its result, and, when the
    wait loop is reached, the flag it leaves behind and the facts that
    fix the number [n] of iterations: the loop test fails after [n]
    iterations and held before each of them. *)
Lemma session_run s :
  exists n : nat,
    trace (snd (session s))
    = trace s ++ session_events (g3gppPowerSavingSet s) n /\
    fst (session s) = session_x n /\
    (enters_wait = true ->
     g3gppPowerSavingSet (snd (session s))
     = set_before_wait (g3gppPowerSavingSet s) || agreed_during 0 n
       || agreed_at After_wait || agreed_at At_uNetworkDown
       || agreed_at At_uNetworkDeinit /\
     negb (set_before_wait (g3gppPowerSavingSet s) || agreed_during 0 n)
     && (Z.of_nat n <? 30) = false /\
     (forall k, (k < n)%nat ->
        set_before_wait (g3gppPowerSavingSet s) || agreed_during 0 k = false
        /\ Z.of_nat k < 30)).
Proof.
  unfold session, session_events, session_x, enters_wait, request_ok,
    on_my_rat, uPortInit, uNetworkInit, uNetworkAdd,
    uCellPwrSet3gppPowerSavingCallback, uCellCfgGetRat, uCellCfgSetRatRank,
    uCellPwrSetRequested3gppPowerSaving, uCellPwrRebootIsRequired,
    uCellPwrReboot, uNetworkUp, uNetworkDown, uNetworkDeinit, uPortDeinit,
    uPortLog.
  cbv zeta.
  destruct (ret_uCellCfgGetRat net =? MY_RAT) eqn:Hrat;
    destruct (ret_uCellCfgSetRatRank net =? 0) eqn:Hrank;
    destruct (ret_uCellPwrSetRequested3gppPowerSaving net =? 0) eqn:Hreq;
    destruct (ret_uCellPwrRebootIsRequired net) eqn:Hreboot;
    destruct (ret_uNetworkUp net =? 0) eqn:Hup;
    repeat first [ run_step | rewrite Hrat | rewrite Hrank | rewrite Hreq
                 | rewrite Hreboot | rewrite Hup
                 | progress cbn [negb andb orb] ].
  (* the branches that do not reach the loop *)
  all: try (exists O; push_trace;
            split; [reflexivity | split; [reflexivity | discriminate]]).
  (* the branches that do *)
  all: apply Z.eqb_eq in Hreq; rewrite Hreq;
    match goal with
    | |- context [wait 0 ?s0] =>
        destruct (wait_spec 0 s0) as (n & Hx & Ht & Hf & Hexit & Hiter);
        assert (Hs0 : g3gppPowerSavingSet s0
                      = set_before_wait (g3gppPowerSavingSet s))
          by (push_flag; unfold set_before_wait; rewrite Hrat, Hreboot;
              cbn [negb andb]; rewrite ?orb_false_r; reflexivity);
        rewrite Hf, Hx, Hs0 in Hexit; rewrite Hs0 in Hf, Hiter;
        cbn [Z.add] in Hexit, Hiter
    end;
    exists n; rewrite notify_flag, Hf, Hx; fold (agreed_at After_wait);
    cbn [Z.add];
    destruct (set_before_wait (g3gppPowerSavingSet s)
              || agreed_during 0 n || agreed_at After_wait) eqn:Hcheck;
    cbv beta iota;
    (split; [| split; [reflexivity | intros _; split; [| auto]]]).
  all: try (push_flag; fold (agreed_at After_wait); rewrite Hf, Hcheck;
            reflexivity).
  all: push_trace; rewrite Ht; push_trace; reflexivity.
Qed.

(* ----------------------------------------------------------------- *)
(** ** Projections of the trace *)

Lemma api_calls_upcalls l : api_calls (upcalls l) = [].
Proof. induction l as [|d l IH]; [reflexivity | exact IH]. Qed.

Lemma outcomes_upcalls l : outcomes (upcalls l) = [].
Proof. induction l as [|d l IH]; [reflexivity | exact IH]. Qed.

Lemma delivered_upcalls l : delivered (upcalls l) = l.
Proof.
  induction l as [|d l IH]; [reflexivity |].
  change (delivered (upcalls (d :: l))) with (d :: delivered (upcalls l)).
  now rewrite IH.
Qed.

Lemma api_calls_cycles_trace x n :
  api_calls (cycles_trace x n) = repeat (Ev_uPortTaskBlock 1000) n.
Proof.
  revert x. induction n as [|n IH]; intros x; [reflexivity |].
  cbn [cycles_trace repeat]. unfold api_calls in *. cbn [filter is_api].
  rewrite filter_app, IH. fold (api_calls (upcalls (deliveries net
    (At_uPortTaskBlock x)))). now rewrite api_calls_upcalls.
Qed.

Lemma outcomes_cycles_trace x n : outcomes (cycles_trace x n) = [].
Proof.
  revert x. induction n as [|n IH]; intros x; [reflexivity |].
  cbn [cycles_trace]. unfold outcomes in *. cbn [flat_map outcome_of app].
  rewrite flat_map_app, IH. fold (outcomes (upcalls (deliveries net
    (At_uPortTaskBlock x)))). now rewrite outcomes_upcalls.
Qed.

Lemma delivered_cycles_trace x n :
  existsb qualifies (delivered (cycles_trace x n)) = agreed_during x n.
Proof.
  revert x. induction n as [|n IH]; intros x; [reflexivity |].
  cbn [cycles_trace agreed_during]. unfold delivered in *.
  cbn [flat_map app]. rewrite flat_map_app, existsb_app, IH.
  fold (delivered (upcalls (deliveries net (At_uPortTaskBlock x)))).
  now rewrite delivered_upcalls.
Qed.

Ltac push_proj proj lem_upcalls lem_cycles :=
  repeat first
    [ rewrite lem_upcalls | rewrite lem_cycles
    | progress (unfold proj; rewrite ?filter_app, ?flat_map_app; fold proj)
    | progress cbn [app filter flat_map is_api outcome_of] ].

Lemma occurrences_api e t :
  is_api e = true -> occurrences e t = occurrences e (api_calls t).
Proof.
  intros He. induction t as [|a t IH]; [reflexivity |].
  unfold occurrences, api_calls in *. cbn [count_occ filter].
  destruct (is_api a) eqn:Ha; cbn [count_occ];
    destruct (event_eq_dec a e) as [->|Hne]; try congruence.
Qed.

Lemma suspend_cycles_api t : suspend_cycles t = suspend_cycles (api_calls t).
Proof.
  induction t as [|a t IH]; [reflexivity |].
  unfold suspend_cycles, api_calls in *. cbn [filter].
  destruct a; cbn [is_api is_uPortTaskBlock filter length]; congruence.
Qed.

Lemma session_api_calls set n :
  api_calls (session_events set n) = session_calls n.
Proof.
  unfold session_events, session_calls, on_my_rat.
  destruct (ret_uCellCfgGetRat net =? MY_RAT),
    (ret_uCellCfgSetRatRank net =? 0),
    (ret_uCellPwrSetRequested3gppPowerSaving net =? 0),
    (ret_uCellPwrRebootIsRequired net), (ret_uNetworkUp net =? 0);
    cbn [orb];
    push_proj api_calls api_calls_upcalls api_calls_cycles_trace;
    reflexivity.
Qed.

Lemma session_outcomes set n :
  outcomes (session_events set n) = [session_outcome set n].
Proof.
  unfold session_events, session_outcome, on_my_rat.
  destruct (ret_uCellCfgGetRat net =? MY_RAT),
    (ret_uCellCfgSetRatRank net =? 0),
    (ret_uCellPwrSetRequested3gppPowerSaving net =? 0),
    (ret_uCellPwrRebootIsRequired net), (ret_uNetworkUp net =? 0);
    cbn [orb];
    try destruct (set_before_wait set || agreed_during 0 n
                  || agreed_at After_wait);
    push_proj outcomes outcomes_upcalls outcomes_cycles_trace;
    reflexivity.
Qed.

(* ----------------------------------------------------------------- *)
(** ** The flag only rises, and only on a callback that passes the test *)

Lemma grows_refl s : grows s s.
Proof.
  exists []. split; [now rewrite app_nil_r | now rewrite orb_false_r].
Qed.

Lemma grows_trans s1 s2 s3 : grows s1 s2 -> grows s2 s3 -> grows s1 s3.
Proof.
  intros (t & Ht & Hf) (u & Hu & Hg). exists (t ++ u). split.
  - now rewrite Hu, Ht, app_assoc.
  - unfold delivered in *.
    now rewrite Hg, Hf, flat_map_app, existsb_app, orb_assoc.
Qed.

Lemma monotone_ret {A} (a : A) : monotone (ret a).
Proof. intros s. apply grows_refl. Qed.

Lemma monotone_bind {A B} (c : M A) (k : A -> M B) :
  monotone c -> (forall a, monotone (k a)) -> monotone (bind c k).
Proof.
  intros Hc Hk s. rewrite bind_run.
  eapply grows_trans; [apply Hc | apply Hk].
Qed.

Lemma monotone_emit e : not_callback e = true -> monotone (emit e).
Proof.
  intros He s. exists [e]. split; [reflexivity |].
  destruct e; try discriminate; cbn; now rewrite orb_false_r.
Qed.

Lemma monotone_read : monotone read_g3gppPowerSavingSet.
Proof. intros s. apply grows_refl. Qed.

Lemma monotone_notify l : monotone (notify l).
Proof.
  intros s. exists (upcalls l). split.
  - apply notify_trace.
  - now rewrite notify_flag, delivered_upcalls.
Qed.

Lemma monotone_call e p : not_callback e = true -> monotone (call e p).
Proof.
  intros He. unfold call. apply monotone_bind.
  - now apply monotone_emit.
  - intros _. apply monotone_notify.
Qed.

Lemma monotone_wait x : monotone (wait x).
Proof.
  intros s. destruct (wait_spec x s) as (n & _ & Ht & Hf & _).
  exists (cycles_trace x n). split; [exact Ht |].
  now rewrite Hf, delivered_cycles_trace.
Qed.

Create HintDb mono.

#[local] Hint Resolve monotone_ret monotone_read monotone_notify
  monotone_wait : mono.

Ltac mono :=
  repeat match goal with
         | |- monotone (bind _ _) => apply monotone_bind; [| intros ?]
         | |- monotone (emit _) => apply monotone_emit; reflexivity
         | |- monotone (call _ _) => apply monotone_call; reflexivity
         | |- monotone (if ?b then _ else _) => destruct b
         | |- monotone _ => solve [auto with mono]
         end.

Lemma monotone_session : monotone session.
Proof.
  unfold session, uPortInit, uNetworkInit, uNetworkAdd,
    uCellPwrSet3gppPowerSavingCallback, uCellCfgGetRat, uCellCfgSetRatRank,
    uCellPwrSetRequested3gppPowerSaving, uCellPwrRebootIsRequired,
    uCellPwrReboot, uNetworkUp, uNetworkDown, uNetworkDeinit, uPortDeinit,
    uPortLog.
  cbv zeta. mono.
Qed.

Lemma monotone_test_cleanup x : monotone (test_cleanup x).
Proof.
  unfold test_cleanup, EXAMPLE_FINAL_STATE, uPortInit, uNetworkInit,
    uPortDeinit.
  mono.
Qed.

Lemma monotone_exampleCellPowerSaving3gpp :
  monotone exampleCellPowerSaving3gpp.
Proof.
  unfold exampleCellPowerSaving3gpp. apply monotone_bind.
  - apply monotone_session.
  - apply monotone_test_cleanup.
Qed.

Lemma grows_keeps_set s s' :
  grows s s' -> g3gppPowerSavingSet s = true ->
  g3gppPowerSavingSet s' = true.
Proof. intros (t & _ & Hf) Hs. now rewrite Hf, Hs. Qed.



(* ----------------------------------------------------------------- *)
(** ** A session from the start of the test function *)

Lemma session_from set :
  exists n : nat,
    trace (snd (session (entry set))) = session_events set n /\
    api_calls (trace (snd (session (entry set)))) = session_calls n /\
    outcomes (trace (snd (session (entry set)))) = [session_outcome set n] /\
    fst (session (entry set)) = session_x n /\
    (enters_wait = true ->
     g3gppPowerSavingSet (snd (session (entry set)))
     = set_before_wait set || agreed_during 0 n || agreed_at After_wait
       || agreed_at At_uNetworkDown || agreed_at At_uNetworkDeinit /\
     negb (set_before_wait set || agreed_during 0 n) && (Z.of_nat n <? 30)
     = false /\
     (forall k, (k < n)%nat ->
        set_before_wait set || agreed_during 0 k = false
        /\ Z.of_nat k < 30)).
Proof.
  destruct (session_run (entry set)) as (n & Ht & Hx & Hw).
  cbn [entry trace g3gppPowerSavingSet app] in Ht, Hw.
  exists n. rewrite Ht, session_api_calls, session_outcomes. auto.
Qed.

(** The number of iterations is 30 when the flag stays clear, and [k + 1]
    when the suspend made at counter [k] is the first to see it set. *)
Lemma cycles_when_never_set set n :
  set_before_wait set || agreed_during 0 n = false ->
  negb (set_before_wait set || agreed_during 0 n) && (Z.of_nat n <? 30)
  = false ->
  (forall k, (k < n)%nat ->
     set_before_wait set || agreed_during 0 k = false /\ Z.of_nat k < 30) ->
  n = 30%nat.
Proof.
  intros Hclear Hexit Hiter. rewrite Hclear in Hexit. cbn in Hexit.
  apply Z.ltb_ge in Hexit.
  destruct (Nat.lt_ge_cases 30 n) as [Hgt|Hle]; [| lia].
  destruct (Hiter 30%nat Hgt) as [_ H30]. lia.
Qed.

Lemma cycles_when_set_at set k n :
  (k < 30)%nat ->
  set_before_wait set || agreed_during 0 k = false ->
  agreed_at (At_uPortTaskBlock (Z.of_nat k)) = true ->
  negb (set_before_wait set || agreed_during 0 n) && (Z.of_nat n <? 30)
  = false ->
  (forall j, (j < n)%nat ->
     set_before_wait set || agreed_during 0 j = false /\ Z.of_nat j < 30) ->
  n = S k /\ set_before_wait set || agreed_during 0 n = true.
Proof.
  intros Hk Hclear Hset Hexit Hiter.
  assert (Hnext : set_before_wait set || agreed_during 0 (S k) = true).
  { rewrite agreed_during_snoc, orb_assoc, Hclear. cbn [orb Z.add].
    exact Hset. }
  assert (Hmono : forall j, (j <= k)%nat ->
            set_before_wait set || agreed_during 0 j = false).
  { intros j Hj. apply orb_false_elim in Hclear.
    destruct Hclear as [Hbefore Hduring].
    rewrite Hbefore. cbn [orb]. now apply agreed_during_le with (k := k). }
  destruct (Nat.lt_trichotomy n (S k)) as [Hlt|[Heq|Hgt]].
  - rewrite (Hmono n) in Hexit by lia. cbn in Hexit.
    apply Z.ltb_ge in Hexit. lia.
  - subst n. split; [reflexivity | exact Hnext].
  - destruct (Hiter (S k) Hgt) as [Hc _]. congruence.
Qed.

Ltac count_events :=
  unfold occurrences;
  repeat first
    [ rewrite count_occ_app
    | rewrite count_occ_repeat_neq by discriminate
    | rewrite count_occ_repeat_eq by reflexivity
    | rewrite count_occ_cons_eq by reflexivity
    | rewrite count_occ_cons_neq by congruence
    | rewrite count_occ_nil ].

Ltac branches :=
  unfold enters_wait, request_ok, on_my_rat in *;
  destruct (ret_uCellCfgGetRat net =? MY_RAT) eqn:Hrat;
  destruct (ret_uCellCfgSetRatRank net =? 0) eqn:Hrank;
  destruct (ret_uCellPwrSetRequested3gppPowerSaving net =? 0) eqn:Hreq;
  destruct (ret_uCellPwrRebootIsRequired net) eqn:Hreboot;
  destruct (ret_uNetworkUp net =? 0) eqn:Hup;
  cbn [orb andb negb] in *.

(** What the internal-test lines add to the trace: the assertion on
    [(x < 0) || g3gppPowerSavingSet] and, when the flag is set, a second
    cycle of initialisation, [uNetworkAdd], switching power saving off
    and teardown. *)
Lemma test_cleanup_trace x s :
  trace (snd (test_cleanup x s))
  = trace s
    ++ (if test_cell_module cfg && test_assert cfg
        then [Ev_U_PORT_TEST_ASSERT ((x <? 0) || g3gppPowerSavingSet s)]
        else [])
    ++ (if test_cell_module cfg && test_assert cfg && g3gppPowerSavingSet s
        then cleanup_calls else []).
Proof.
  unfold test_cleanup, EXAMPLE_FINAL_STATE, cleanup_calls, uPortInit,
    uNetworkInit, uPortDeinit.
  destruct (test_cell_module cfg), (test_assert cfg),
    (g3gppPowerSavingSet s) eqn:Hset,
    (cleanup_uCellPwrRebootIsRequired net) eqn:Hreboot;
    cbn [andb];
    repeat first [ run_step | rewrite emit_flag | rewrite Hset
                 | rewrite Hreboot ];
    push_trace; rewrite ?app_nil_r; reflexivity.
Qed.

(** What the internal-test lines add to the count of a teardown call or
    of [uNetworkAdd]: one, when they are compiled in and find the flag
    set, and nothing otherwise. *)
Lemma test_cleanup_occurrences x s e :
  e = Ev_uNetworkDeinit \/ e = Ev_uPortDeinit \/ e = Ev_uNetworkAdd ->
  occurrences e (trace (snd (test_cleanup x s)))
  = (occurrences e (trace s)
     + if test_cell_module cfg && test_assert cfg && g3gppPowerSavingSet s
       then 1 else 0)%nat.
Proof.
  intros He. unfold test_cleanup, EXAMPLE_FINAL_STATE, uPortInit,
    uNetworkInit, uPortDeinit.
  destruct (test_cell_module cfg), (test_assert cfg),
    (g3gppPowerSavingSet s) eqn:Hset,
    (cleanup_uCellPwrRebootIsRequired net) eqn:Hreboot;
    cbn [andb];
    repeat first [ run_step | rewrite emit_flag | rewrite Hset
                 | rewrite Hreboot ];
    push_trace; destruct He as [->|[->| ->]]; count_events; lia.
Qed.

(* ----------------------------------------------------------------- *)
(** ** The properties of the specification *)

(** C2.  Whatever branch a session takes (RAT configuration failure,
    request unsupported, bring-up failure, agreed, timed out: it logs
    exactly one of these outcomes), it calls [uNetworkDeinit] exactly once
    and [uPortDeinit] exactly once, as its last two calls into ubxlib, and
    so releases the one network it added.  The internal-test lines that
    may follow the session add a network of their own, when they are
    compiled in and find the flag set, and tear it down in turn: over the
    whole test function every [uNetworkAdd] is matched by one
    [uNetworkDeinit] and one [uPortDeinit]. *)
Theorem teardown_exactly_once (set : bool) :
  let t := trace (snd (session (entry set))) in
  let t' := trace (snd (exampleCellPowerSaving3gpp (entry set))) in
  (exists o, outcomes t = [o]) /\
  occurrences Ev_uNetworkAdd t = 1%nat /\
  occurrences Ev_uNetworkDeinit t = 1%nat /\
  occurrences Ev_uPortDeinit t = 1%nat /\
  (exists before,
     api_calls t = before ++ [Ev_uNetworkDeinit; Ev_uPortDeinit]) /\
  occurrences Ev_uNetworkDeinit t' = occurrences Ev_uNetworkAdd t' /\
  occurrences Ev_uPortDeinit t' = occurrences Ev_uNetworkAdd t' /\
  occurrences Ev_uNetworkAdd t'
  = (if test_cell_module cfg && test_assert cfg
        && g3gppPowerSavingSet (snd (session (entry set)))
     then 2%nat else 1%nat).
Proof.
  intros t t'.
  destruct (session_from set) as (n & _ & Hcalls & Hout & _).
  fold t in Hcalls, Hout.
  assert (Hadd : occurrences Ev_uNetworkAdd t = 1%nat).
  { rewrite occurrences_api, Hcalls by reflexivity.
    unfold session_calls. branches; count_events; reflexivity. }
  assert (Hnet : occurrences Ev_uNetworkDeinit t = 1%nat).
  { rewrite occurrences_api, Hcalls by reflexivity.
    unfold session_calls. branches; count_events; reflexivity. }
  assert (Hport : occurrences Ev_uPortDeinit t = 1%nat).
  { rewrite occurrences_api, Hcalls by reflexivity.
    unfold session_calls. branches; count_events; reflexivity. }
  repeat split; try assumption.
  - eauto.
  - rewrite Hcalls. unfold session_calls. rewrite !app_assoc. eauto.
  - subst t'. unfold exampleCellPowerSaving3gpp. rewrite bind_run.
    rewrite !test_cleanup_occurrences by auto. fold t. lia.
  - subst t'. unfold exampleCellPowerSaving3gpp. rewrite bind_run.
    rewrite !test_cleanup_occurrences by auto. fold t. lia.
  - subst t'. unfold exampleCellPowerSaving3gpp. rewrite bind_run.
    rewrite test_cleanup_occurrences by auto. fold t. rewrite Hadd.
    destruct (test_cell_module cfg && test_assert cfg
              && g3gppPowerSavingSet (snd (session (entry set))));
      reflexivity.
Qed.

(** C3.  When the wait loop is reached (the RAT is right, the request
    returned 0, so that [x] is 0, and [uNetworkUp] returned 0) and the
    flag is never set, i.e. is still clear when the session ends, the
    loop makes exactly 30 suspends, each a [uPortTaskBlock(1000)], leaves
    [x] at 30, and the session logs the timed-out outcome. *)
Theorem timeout_after_30_cycles :
  ret_uCellCfgGetRat net = MY_RAT \/ ret_uCellCfgSetRatRank net = 0 ->
  ret_uCellPwrSetRequested3gppPowerSaving net = 0 ->
  ret_uNetworkUp net = 0 ->
  g3gppPowerSavingSet (snd (session initial_state)) = false ->
  suspend_cycles (trace (snd (session initial_state))) = 30%nat /\
  occurrences (Ev_uPortTaskBlock 1000) (trace (snd (session initial_state)))
  = 30%nat /\
  fst (session initial_state) = 30 /\
  outcomes (trace (snd (session initial_state))) = [TimedOut].
Proof.
  intros Hmy Hrequest Hbring Hnever.
  change initial_state with (entry false) in *.
  destruct (session_from false) as (n & _ & Hcalls & Hout & Hx & Hw).
  assert (Henter : enters_wait = true).
  { unfold enters_wait, request_ok, on_my_rat.
    rewrite Hrequest, Hbring. cbn.
    destruct Hmy as [->| ->]; rewrite ?Z.eqb_refl, ?orb_true_r; reflexivity. }
  destruct (Hw Henter) as (Hflag & Hexit & Hiter).
  rewrite Hnever in Hflag. symmetry in Hflag.
  apply orb_false_elim in Hflag. destruct Hflag as [Hflag _].
  apply orb_false_elim in Hflag. destruct Hflag as [Hflag _].
  apply orb_false_elim in Hflag. destruct Hflag as [Hclear Hafter].
  assert (Hn : n = 30%nat) by (eapply cycles_when_never_set; eassumption).
  subst n.
  rewrite suspend_cycles_api, occurrences_api, Hcalls, Hout, Hx
    by reflexivity.
  unfold session_x, session_outcome.
  rewrite Hclear, Hafter.
  unfold suspend_cycles, session_calls.
  clear Hexit Hiter Hw Hcalls Hout Hx.
  branches; try discriminate; rewrite ?filter_app, ?length_app;
    count_events; repeat split; reflexivity.
Qed.

(** C5.  When the RAT read back is not [MY_RAT] and the rank change is
    refused, the session never calls [uCellPwrSetRequested3gppPowerSaving]:
    after the refused [uCellCfgSetRatRank] its next calls into ubxlib are
    the teardown pair, and it logs the RAT failure. *)
Theorem rat_failure_skips_request (set : bool) :
  ret_uCellCfgGetRat net <> MY_RAT ->
  ret_uCellCfgSetRatRank net <> 0 ->
  let t := trace (snd (session (entry set))) in
  let h := ret_uNetworkAdd net in
  (forall h' rat on active periodic,
     ~ In (Ev_uCellPwrSetRequested3gppPowerSaving h' rat on active periodic)
          t) /\
  api_calls t
  = [Ev_uPortInit; Ev_uNetworkInit; Ev_uNetworkAdd;
     Ev_uCellPwrSet3gppPowerSavingCallback h; Ev_uCellCfgGetRat h 0;
     Ev_uCellCfgSetRatRank h MY_RAT 0; Ev_uNetworkDeinit; Ev_uPortDeinit] /\
  outcomes t = [RatError] /\
  fst (session (entry set)) = -1.
Proof.
  intros Hrat Hrank t h.
  apply Z.eqb_neq in Hrat, Hrank.
  destruct (session_from set) as (n & _ & Hcalls & Hout & Hx & _).
  fold t in Hcalls, Hout.
  assert (Hlist : session_calls n
            = [Ev_uPortInit; Ev_uNetworkInit; Ev_uNetworkAdd;
               Ev_uCellPwrSet3gppPowerSavingCallback h;
               Ev_uCellCfgGetRat h 0; Ev_uCellCfgSetRatRank h MY_RAT 0;
               Ev_uNetworkDeinit; Ev_uPortDeinit]).
  { unfold session_calls, on_my_rat. now rewrite Hrat, Hrank. }
  repeat split.
  - intros h' rat on active periodic Hin.
    assert (Hin' : In (Ev_uCellPwrSetRequested3gppPowerSaving h' rat on
                         active periodic) (api_calls t))
      by (apply filter_In; auto).
    rewrite Hcalls, Hlist in Hin'. cbn in Hin'.
    repeat (destruct Hin' as [Hin'|Hin']; [discriminate |]). exact Hin'.
  - now rewrite Hcalls.
  - rewrite Hout. unfold session_outcome, on_my_rat.
    now rewrite Hrat, Hrank.
  - rewrite Hx. unfold session_x, on_my_rat. now rewrite Hrat, Hrank.
Qed.

(** C6.  The reboot query [uCellPwrRebootIsRequired] is made exactly when
    the power-saving request was made and returned 0, once, as the call
    that follows the request; [uCellPwrReboot] is then called exactly when
    the query answers true, before [uNetworkUp].  In particular a session
    whose request returns nonzero makes neither call. *)
Theorem reboot_only_after_successful_request (set : bool) :
  let t := trace (snd (session (entry set))) in
  let h := ret_uNetworkAdd net in
  (forall h',
     occurrences (Ev_uCellPwrRebootIsRequired h') t
     = if request_ok && (h' =? h) then 1%nat else 0%nat) /\
  (forall h',
     occurrences (Ev_uCellPwrReboot h') t
     = if request_ok && ret_uCellPwrRebootIsRequired net && (h' =? h)
       then 1%nat else 0%nat) /\
  (request_ok = true ->
   exists before after,
     api_calls t
     = before
       ++ [Ev_uCellPwrSetRequested3gppPowerSaving h MY_RAT true 60 14400;
           Ev_uCellPwrRebootIsRequired h]
       ++ (if ret_uCellPwrRebootIsRequired net
           then [Ev_uCellPwrReboot h] else [])
       ++ Ev_uNetworkUp h :: after) /\
  (ret_uCellPwrSetRequested3gppPowerSaving net <> 0 ->
   forall h', ~ In (Ev_uCellPwrRebootIsRequired h') t /\
              ~ In (Ev_uCellPwrReboot h') t).
Proof.
  intros t h.
  destruct (session_from set) as (n & _ & Hcalls & _).
  fold t in Hcalls.
  assert (Hquery : forall h',
            occurrences (Ev_uCellPwrRebootIsRequired h') t
            = if request_ok && (h' =? h) then 1%nat else 0%nat).
  { intros h'. rewrite occurrences_api, Hcalls by reflexivity.
    unfold session_calls. fold h.
    destruct (Z.eqb_spec h' h) as [->|Hne];
      branches; count_events; reflexivity. }
  assert (Hreboot : forall h',
            occurrences (Ev_uCellPwrReboot h') t
            = if request_ok && ret_uCellPwrRebootIsRequired net && (h' =? h)
              then 1%nat else 0%nat).
  { intros h'. rewrite occurrences_api, Hcalls by reflexivity.
    unfold session_calls. fold h.
    destruct (Z.eqb_spec h' h) as [->|Hne];
      branches; count_events; reflexivity. }
  repeat split; try assumption.
  - intros Hok. rewrite Hcalls. unfold session_calls. fold h.
    unfold request_ok in Hok. apply andb_prop in Hok.
    destruct Hok as [Hmy Hreq]. rewrite Hmy, Hreq.
    exists ([Ev_uPortInit; Ev_uNetworkInit; Ev_uNetworkAdd;
             Ev_uCellPwrSet3gppPowerSavingCallback h; Ev_uCellCfgGetRat h 0]
            ++ (if ret_uCellCfgGetRat net =? MY_RAT then []
                else [Ev_uCellCfgSetRatRank h MY_RAT 0])).
    exists ((if ret_uNetworkUp net =? 0
             then repeat (Ev_uPortTaskBlock 1000) n ++ [Ev_uNetworkDown h]
             else [])
            ++ [Ev_uNetworkDeinit; Ev_uPortDeinit]).
    change ACTIVE_TIME_SECONDS with 60.
    change PERIODIC_WAKEUP_SECONDS with 14400.
    destruct (ret_uCellCfgGetRat net =? MY_RAT),
      (ret_uCellPwrRebootIsRequired net), (ret_uNetworkUp net =? 0);
      cbn [app]; rewrite <- ?app_assoc; reflexivity.
  - apply count_occ_not_In with (eq_dec := event_eq_dec).
    fold (occurrences (Ev_uCellPwrRebootIsRequired h') t).
    rewrite Hquery. unfold request_ok.
    apply Z.eqb_neq in H. now rewrite H, andb_false_r.
  - apply count_occ_not_In with (eq_dec := event_eq_dec).
    fold (occurrences (Ev_uCellPwrReboot h') t).
    rewrite Hreboot. unfold request_ok.
    apply Z.eqb_neq in H. now rewrite H, andb_false_r.
Qed.

(** C7.  When [uNetworkUp] returns nonzero the session makes no suspend
    at all, and still calls [uNetworkDeinit] and [uPortDeinit] once each;
    where [uNetworkUp] was reached, these two are the very next calls into
    ubxlib and the session logs the bring-up failure. *)
Theorem bring_up_failure_skips_wait (set : bool) :
  ret_uNetworkUp net <> 0 ->
  let t := trace (snd (session (entry set))) in
  let h := ret_uNetworkAdd net in
  suspend_cycles t = 0%nat /\
  (forall ms, ~ In (Ev_uPortTaskBlock ms) t) /\
  occurrences Ev_uNetworkDeinit t = 1%nat /\
  occurrences Ev_uPortDeinit t = 1%nat /\
  (request_ok = true ->
   outcomes t = [NetworkBringUpError] /\
   exists before,
     api_calls t
     = before ++ [Ev_uNetworkUp h; Ev_uNetworkDeinit; Ev_uPortDeinit]).
Proof.
  intros Hfail t h. apply Z.eqb_neq in Hfail.
  destruct (session_from set) as (n & _ & Hcalls & Hout & _).
  fold t in Hcalls, Hout.
  assert (Hnone : forall ms, occurrences (Ev_uPortTaskBlock ms) t = 0%nat).
  { intros ms. rewrite occurrences_api, Hcalls by reflexivity.
    unfold session_calls. rewrite Hfail.
    branches; count_events; reflexivity. }
  repeat split.
  - rewrite suspend_cycles_api, Hcalls. unfold session_calls, suspend_cycles.
    rewrite Hfail. branches; reflexivity.
  - intros ms. apply count_occ_not_In with (eq_dec := event_eq_dec).
    apply Hnone.
  - rewrite occurrences_api, Hcalls by reflexivity.
    unfold session_calls. branches; count_events; reflexivity.
  - rewrite occurrences_api, Hcalls by reflexivity.
    unfold session_calls. branches; count_events; reflexivity.
  - rewrite Hout. unfold session_outcome. unfold request_ok in H.
    apply andb_prop in H. destruct H as [Hmy Hreq].
    now rewrite Hmy, Hreq, Hfail.
  - rewrite Hcalls. unfold session_calls. fold h. unfold request_ok in H.
    apply andb_prop in H. destruct H as [Hmy Hreq].
    rewrite Hmy, Hreq, Hfail.
    exists (([Ev_uPortInit; Ev_uNetworkInit; Ev_uNetworkAdd;
       Ev_uCellPwrSet3gppPowerSavingCallback h; Ev_uCellCfgGetRat h 0]
      ++ (if ret_uCellCfgGetRat net =? MY_RAT then []
          else [Ev_uCellCfgSetRatRank h MY_RAT 0]))
      ++ Ev_uCellPwrSetRequested3gppPowerSaving h MY_RAT true
           ACTIVE_TIME_SECONDS PERIODIC_WAKEUP_SECONDS
         :: Ev_uCellPwrRebootIsRequired h
         :: (if ret_uCellPwrRebootIsRequired net
             then [Ev_uCellPwrReboot h] else [])).
    destruct (ret_uCellCfgGetRat net =? MY_RAT),
      (ret_uCellPwrRebootIsRequired net); reflexivity.
Qed.

(** C8.  The session reads the RAT with [uCellCfgGetRat] first, and then
    calls [uCellCfgSetRatRank] for [MY_RAT] at rank 0 exactly when the RAT
    read differs from [MY_RAT]; neither call is made again.  When the RAT
    read is [MY_RAT] already, the next call is the power-saving
    request. *)
Theorem rat_rank_change_iff_rat_differs (set : bool) :
  let t := trace (snd (session (entry set))) in
  let h := ret_uNetworkAdd net in
  exists rest,
    api_calls t
    = [Ev_uPortInit; Ev_uNetworkInit; Ev_uNetworkAdd;
       Ev_uCellPwrSet3gppPowerSavingCallback h; Ev_uCellCfgGetRat h 0]
      ++ (if ret_uCellCfgGetRat net =? MY_RAT then []
          else [Ev_uCellCfgSetRatRank h MY_RAT 0])
      ++ rest /\
    (forall h' rank, ~ In (Ev_uCellCfgGetRat h' rank) rest) /\
    (forall h' rat rank, ~ In (Ev_uCellCfgSetRatRank h' rat rank) rest) /\
    (ret_uCellCfgGetRat net = MY_RAT ->
     exists rest',
       rest = Ev_uCellPwrSetRequested3gppPowerSaving h MY_RAT true 60 14400
              :: rest').
Proof.
  intros t h.
  destruct (session_from set) as (n & _ & Hcalls & _).
  fold t in Hcalls. rewrite Hcalls. unfold session_calls. fold h.
  eexists. split; [reflexivity |]. repeat split.
  - intros h' rank. apply count_occ_not_In with (eq_dec := event_eq_dec).
    branches; count_events; reflexivity.
  - intros h' rat rank. apply count_occ_not_In with (eq_dec := event_eq_dec).
    branches; count_events; reflexivity.
  - intros Hrat. unfold on_my_rat. rewrite Hrat, Z.eqb_refl. cbn [orb app].
    eexists. reflexivity.
Qed.

(** C10.  [uNetworkDown] is called exactly when [uNetworkUp] was called
    and returned 0, and then once, on the handle that was brought up, as
    the last call before the teardown pair.  [uNetworkUp] itself is
    called, once, exactly when the power-saving request returned 0. *)
Theorem network_down_iff_network_up_succeeded (set : bool) :
  let t := trace (snd (session (entry set))) in
  let h := ret_uNetworkAdd net in
  (forall h',
     occurrences (Ev_uNetworkUp h') t
     = if request_ok && (h' =? h) then 1%nat else 0%nat) /\
  (forall h',
     occurrences (Ev_uNetworkDown h') t
     = if request_ok && (ret_uNetworkUp net =? 0) && (h' =? h)
       then 1%nat else 0%nat) /\
  (request_ok = true -> ret_uNetworkUp net = 0 ->
   exists before,
     api_calls t
     = before ++ [Ev_uNetworkDown h; Ev_uNetworkDeinit; Ev_uPortDeinit] /\
     In (Ev_uNetworkUp h) before) /\
  (ret_uNetworkUp net <> 0 -> forall h', ~ In (Ev_uNetworkDown h') t).
Proof.
  intros t h.
  destruct (session_from set) as (n & _ & Hcalls & _).
  fold t in Hcalls.
  assert (Hdown : forall h',
            occurrences (Ev_uNetworkDown h') t
            = if request_ok && (ret_uNetworkUp net =? 0) && (h' =? h)
              then 1%nat else 0%nat).
  { intros h'. rewrite occurrences_api, Hcalls by reflexivity.
    unfold session_calls. fold h.
    destruct (Z.eqb_spec h' h) as [->|Hne];
      branches; count_events; reflexivity. }
  repeat split.
  - intros h'. rewrite occurrences_api, Hcalls by reflexivity.
    unfold session_calls. fold h.
    destruct (Z.eqb_spec h' h) as [->|Hne];
      branches; count_events; reflexivity.
  - exact Hdown.
  - intros Hok Hup. rewrite Hcalls. unfold session_calls. fold h.
    unfold request_ok in Hok. apply andb_prop in Hok.
    destruct Hok as [Hmy Hreq]. rewrite Hmy, Hreq, Hup. cbn [Z.eqb].
    exists ([Ev_uPortInit; Ev_uNetworkInit; Ev_uNetworkAdd;
             Ev_uCellPwrSet3gppPowerSavingCallback h; Ev_uCellCfgGetRat h 0]
            ++ (if ret_uCellCfgGetRat net =? MY_RAT then []
                else [Ev_uCellCfgSetRatRank h MY_RAT 0])
            ++ Ev_uCellPwrSetRequested3gppPowerSaving h MY_RAT true
                 ACTIVE_TIME_SECONDS PERIODIC_WAKEUP_SECONDS
               :: Ev_uCellPwrRebootIsRequired h
               :: (if ret_uCellPwrRebootIsRequired net
                   then [Ev_uCellPwrReboot h] else [])
               ++ Ev_uNetworkUp h :: repeat (Ev_uPortTaskBlock 1000) n).
    split.
    + destruct (ret_uCellCfgGetRat net =? MY_RAT),
        (ret_uCellPwrRebootIsRequired net);
        cbn [app]; rewrite <- ?app_assoc; reflexivity.
    + destruct (ret_uCellCfgGetRat net =? MY_RAT),
        (ret_uCellPwrRebootIsRequired net); cbn [app In]; tauto.
  - intros Hfail h'. apply count_occ_not_In with (eq_dec := event_eq_dec).
    fold (occurrences (Ev_uNetworkDown h') t). rewrite Hdown.
    apply Z.eqb_neq in Hfail. now rewrite Hfail, andb_false_r.
Qed.

(** C9.  The flag starts clear; an entry into [callback] leaves it as it
    was or sets it, so a delivery of any values leaves a set flag set;
    the calls and log lines of the workflow do not write it.  A session
    and the whole test function, from any state, extend the trace and
    change the flag only from clear to set, and only where a callback
    entry they record passes the test.  So a flag that is set stays set
    through the wait loop, which it ends at once, through the session and
    through the whole test function, and a session that logs the agreed
    outcome ends with the flag set. *)
Theorem flag_monotone :
  g3gppPowerSavingSet initial_state = false /\
  (forall d s,
     g3gppPowerSavingSet (snd (deliver d s))
     = g3gppPowerSavingSet s || qualifies d) /\
  (forall l s,
     g3gppPowerSavingSet s = true ->
     g3gppPowerSavingSet (snd (notify l s)) = true) /\
  (forall e s,
     g3gppPowerSavingSet (snd (emit e s)) = g3gppPowerSavingSet s) /\
  (forall s, grows s (snd (session s))) /\
  (forall s, grows s (snd (exampleCellPowerSaving3gpp s))) /\
  (forall x s, g3gppPowerSavingSet s = true -> wait x s = (x, s)) /\
  (forall s,
     g3gppPowerSavingSet s = true ->
     g3gppPowerSavingSet (snd (session s)) = true /\
     g3gppPowerSavingSet (snd (exampleCellPowerSaving3gpp s)) = true) /\
  (forall set,
     outcomes (trace (snd (session (entry set)))) = [Agreed] ->
     g3gppPowerSavingSet (snd (session (entry set))) = true).
Proof.
  repeat split.
  - apply deliver_flag.
  - intros l s Hs. now rewrite notify_flag, Hs.
  - apply monotone_session.
  - apply monotone_exampleCellPowerSaving3gpp.
  - intros x s Hs. now rewrite wait_step, Hs.
  - eapply grows_keeps_set; [apply monotone_session | assumption].
  - eapply grows_keeps_set;
      [apply monotone_exampleCellPowerSaving3gpp | assumption].
  - intros set Hout.
    destruct (session_from set) as (n & _ & _ & Hout' & _ & Hw).
    rewrite Hout' in Hout. injection Hout as Hout.
    unfold session_outcome in Hout.
    assert (Henter : enters_wait = true).
    { unfold enters_wait, request_ok.
      destruct on_my_rat; [| discriminate].
      destruct (ret_uCellPwrSetRequested3gppPowerSaving net =? 0);
        [| discriminate].
      destruct (ret_uNetworkUp net =? 0); [reflexivity | discriminate]. }
    destruct (Hw Henter) as (Hflag & _). rewrite Hflag.
    unfold enters_wait, request_ok in Henter.
    apply andb_prop in Henter. destruct Henter as [Henter Hup].
    apply andb_prop in Henter. destruct Henter as [Hmy Hreq].
    rewrite Hmy, Hreq, Hup in Hout.
    destruct (set_before_wait set || agreed_during 0 n
              || agreed_at After_wait); [reflexivity | discriminate].
Qed.

Lemma filter_repeat_uPortTaskBlock ms n :
  filter is_uPortTaskBlock (repeat (Ev_uPortTaskBlock ms) n)
  = repeat (Ev_uPortTaskBlock ms) n.
Proof. induction n as [|n IH]; [reflexivity | cbn; now rewrite IH]. Qed.

Lemma suspend_cycles_session_calls n :
  suspend_cycles (session_calls n) = if enters_wait then n else 0%nat.
Proof.
  unfold suspend_cycles, session_calls.
  branches;
    repeat first
      [ rewrite filter_app | rewrite filter_repeat_uPortTaskBlock
      | rewrite length_app | rewrite repeat_length
      | progress cbn [filter is_uPortTaskBlock length app] ];
    lia.
Qed.

Lemma occurrences_uPortTaskBlock_session_calls n :
  occurrences (Ev_uPortTaskBlock 1000) (session_calls n)
  = if enters_wait then n else 0%nat.
Proof.
  unfold session_calls. branches; count_events; lia.
Qed.

(** The session whose flag is clear when the wait loop is reached and is
    first set by a delivery during the suspend made at counter [k]. *)
Lemma session_agreed_at_cycle (set : bool) (k : nat) :
  enters_wait = true ->
  (k < 30)%nat ->
  set_before_wait set || agreed_during 0 k = false ->
  agreed_at (At_uPortTaskBlock (Z.of_nat k)) = true ->
  suspend_cycles (trace (snd (session (entry set)))) = S k /\
  occurrences (Ev_uPortTaskBlock 1000) (trace (snd (session (entry set))))
  = S k /\
  fst (session (entry set)) = Z.of_nat (S k) /\
  outcomes (trace (snd (session (entry set)))) = [Agreed] /\
  g3gppPowerSavingSet (snd (session (entry set))) = true.
Proof.
  intros Henter Hk Hclear Hset.
  destruct (session_from set) as (n & _ & Hcalls & Hout & Hx & Hw).
  destruct (Hw Henter) as (Hflag & Hexit & Hiter).
  destruct (cycles_when_set_at set k n Hk Hclear Hset Hexit Hiter)
    as [-> Hcheck].
  rewrite suspend_cycles_api, occurrences_api, Hcalls, Hout, Hx, Hflag
    by reflexivity.
  rewrite suspend_cycles_session_calls,
    occurrences_uPortTaskBlock_session_calls, Henter, Hcheck.
  unfold session_x, session_outcome. rewrite Henter, Hcheck.
  unfold enters_wait, request_ok in Henter.
  apply andb_prop in Henter. destruct Henter as [Henter Hup].
  apply andb_prop in Henter. destruct Henter as [Hmy Hreq].
  rewrite Hmy, Hreq, Hup. repeat split; reflexivity.
Qed.

(** A session entered with the flag already set, as it is when the test
    function is run again in a process in which it has reached agreement
    before: where the wait loop is reached it makes no suspend at all and
    the agreed outcome is logged. *)
Lemma session_entered_with_flag_set :
  enters_wait = true ->
  suspend_cycles (trace (snd (session (entry true)))) = 0%nat /\
  outcomes (trace (snd (session (entry true)))) = [Agreed].
Proof.
  intros Henter.
  destruct (session_from true) as (n & _ & Hcalls & Hout & _ & Hw).
  destruct (Hw Henter) as (_ & _ & Hiter).
  assert (Hn : n = O).
  { destruct n as [|n]; [reflexivity |].
    destruct (Hiter O) as [Hc _]; [lia | discriminate Hc]. }
  subst n.
  rewrite suspend_cycles_api, Hcalls, Hout, suspend_cycles_session_calls,
    Henter.
  unfold session_outcome.
  unfold enters_wait, request_ok in Henter.
  apply andb_prop in Henter. destruct Henter as [Henter Hup].
  apply andb_prop in Henter. destruct Henter as [Hmy Hreq].
  rewrite Hmy, Hreq, Hup. split; reflexivity.
Qed.

(** The calls of the whole test function: those of the session, then
    those of the internal-test lines when these run. *)
Lemma exampleCellPowerSaving3gpp_calls s :
  api_calls (trace (snd (exampleCellPowerSaving3gpp s)))
  = api_calls (trace (snd (session s)))
    ++ (if test_cell_module cfg && test_assert cfg
           && g3gppPowerSavingSet (snd (session s))
        then cleanup_calls else []).
Proof.
  unfold exampleCellPowerSaving3gpp. rewrite bind_run, test_cleanup_trace.
  unfold api_calls. rewrite !filter_app.
  destruct (test_cell_module cfg && test_assert cfg); cbn [andb filter app].
  - destruct (g3gppPowerSavingSet (snd (session s))); [| reflexivity].
    f_equal. unfold cleanup_calls.
    destruct (cleanup_uCellPwrRebootIsRequired net); reflexivity.
  - reflexivity.
Qed.

(** The final state the internal-test build asserts is the flag at the
    end of the session, unless the request was never made or failed with
    a negative [x]. *)
Lemma final_state_assertion s :
  test_cell_module cfg = true -> test_assert cfg = true ->
  In (Ev_U_PORT_TEST_ASSERT
        ((fst (session s) <? 0) || g3gppPowerSavingSet (snd (session s))))
     (trace (snd (exampleCellPowerSaving3gpp s))).
Proof.
  intros Hmodule Hassert.
  unfold exampleCellPowerSaving3gpp.
  rewrite bind_run, test_cleanup_trace, Hmodule, Hassert. cbn [andb].
  apply in_or_app. right. apply in_or_app. left. now left.
Qed.

(* ----------------------------------------------------------------- *)
(** ** Further properties of the wait loop and of the outcome *)

Lemma suspend_cycles_app t u :
  suspend_cycles (t ++ u) = (suspend_cycles t + suspend_cycles u)%nat.
Proof. unfold suspend_cycles. now rewrite filter_app, length_app. Qed.

Lemma suspend_cycles_upcalls l : suspend_cycles (upcalls l) = 0%nat.
Proof. induction l as [|d l IH]; [reflexivity | exact IH]. Qed.

Lemma suspend_cycles_cycles_trace x n : suspend_cycles (cycles_trace x n) = n.
Proof.
  revert x. induction n as [|n IH]; intros x; [reflexivity |].
  cbn [cycles_trace].
  change (Ev_uPortTaskBlock 1000
          :: upcalls (deliveries net (At_uPortTaskBlock x))
             ++ cycles_trace (x + 1) n)
    with ([Ev_uPortTaskBlock 1000]
          ++ upcalls (deliveries net (At_uPortTaskBlock x))
          ++ cycles_trace (x + 1) n).
  rewrite !suspend_cycles_app, suspend_cycles_upcalls, IH. reflexivity.
Qed.

(** X5.  The wait loop from any counter [x] and any state: the counter
    never decreases and never passes 30 unless it started there, the
    suspends made are as many as the counter advanced, the loop is left
    only with the flag set or the counter at 30 or more, and it only adds
    to the trace and only raises the flag.  From a counter of 30 or more
    it does nothing at all. *)
Theorem wait_postcondition (x : Z) (s : state) :
  x <= fst (wait x s) <= Z.max x 30 /\
  suspend_cycles (trace (snd (wait x s)))
  = (suspend_cycles (trace s) + Z.to_nat (fst (wait x s) - x))%nat /\
  (g3gppPowerSavingSet (snd (wait x s)) = true \/ 30 <= fst (wait x s)) /\
  grows s (snd (wait x s)) /\
  (30 <= x -> wait x s = (x, s)).
Proof.
  destruct (wait_spec x s) as (n & Hx & Ht & Hf & Hexit & Hiter).
  repeat split.
  - rewrite Hx. lia.
  - rewrite Hx. destruct n as [|n]; [lia |].
    destruct (Hiter n) as [_ Hn]; lia.
  - rewrite Ht, Hx, suspend_cycles_app, suspend_cycles_cycles_trace.
    f_equal. lia.
  - destruct (g3gppPowerSavingSet (snd (wait x s))); [now left | right].
    cbn in Hexit. now apply Z.ltb_ge in Hexit.
  - apply monotone_wait.
  - intros Hx30. rewrite wait_step.
    replace (x <? 30) with false by (symmetry; apply Z.ltb_ge; lia).
    now rewrite andb_false_r.
Qed.

(** X4.  Whatever the collaborator does, a session suspends at most 30
    times, always by [uPortTaskBlock(1000)]; it suspends at all only if
    the wait loop is reached with the flag clear; and when the loop is
    reached, the local [x] ends as the number of suspends made. *)
Theorem suspends_bounded (set : bool) :
  let t := trace (snd (session (entry set))) in
  (suspend_cycles t <= 30)%nat /\
  (forall ms, In (Ev_uPortTaskBlock ms) t -> ms = 1000) /\
  (suspend_cycles t <> 0%nat ->
   enters_wait = true /\ set_before_wait set = false) /\
  (enters_wait = true ->
   fst (session (entry set)) = Z.of_nat (suspend_cycles t)).
Proof.
  intros t.
  destruct (session_from set) as (n & _ & Hcalls & _ & Hx & Hw).
  fold t in Hcalls.
  assert (Hcycles : suspend_cycles t = if enters_wait then n else 0%nat)
    by (now rewrite suspend_cycles_api, Hcalls, suspend_cycles_session_calls).
  repeat split.
  - rewrite Hcycles. destruct enters_wait; [| lia].
    destruct (Hw eq_refl) as (_ & _ & Hiter).
    destruct n as [|n]; [lia |]. destruct (Hiter n) as [_ Hn]; lia.
  - intros ms Hin.
    assert (Hin' : In (Ev_uPortTaskBlock ms) (api_calls t))
      by (apply filter_In; auto).
    rewrite Hcalls in Hin'. unfold session_calls in Hin'.
    clear Hw Hx Hcycles Hcalls.
    branches; cbn [app] in Hin';
      repeat match goal with
             | H : In _ (_ :: _) |- _ =>
                 destruct H as [H|H]; [discriminate |]
             | H : In _ (_ ++ _) |- _ =>
                 apply in_app_or in H; destruct H as [H|H]
             | H : In _ (repeat _ _) |- _ =>
                 apply repeat_spec in H; now inversion H
             | H : In _ [] |- _ => destruct H
             end.
  - rewrite Hcycles in H. destruct enters_wait; congruence.
  - rewrite Hcycles in H. destruct enters_wait; [| congruence].
    destruct (Hw eq_refl) as (_ & _ & Hiter).
    destruct n as [|n]; [congruence |].
    destruct (Hiter O) as [Hclear _]; [lia |].
    cbn [agreed_during] in Hclear. now rewrite orb_false_r in Hclear.
  - intros Henter. rewrite Hcycles, Hx. unfold session_x.
    rewrite Henter. unfold enters_wait, request_ok in Henter.
    apply andb_prop in Henter. destruct Henter as [Henter _].
    apply andb_prop in Henter. destruct Henter as [Hmy _].
    now rewrite Hmy.
Qed.

(** X6.  Which outcome a session logs, from what the calls return: the
    RAT failure exactly when the RAT read is not [MY_RAT] and the rank
    change is refused; unsupported exactly when the request is made and
    returns nonzero; the bring-up failure exactly when the request
    returned 0 and [uNetworkUp] nonzero; agreed or timed out exactly when
    the wait loop is reached. *)
Theorem outcome_table (set : bool) :
  let t := trace (snd (session (entry set))) in
  (outcomes t = [RatError] <->
   ret_uCellCfgGetRat net <> MY_RAT /\ ret_uCellCfgSetRatRank net <> 0) /\
  (outcomes t = [UnsupportedError] <->
   (ret_uCellCfgGetRat net = MY_RAT \/ ret_uCellCfgSetRatRank net = 0) /\
   ret_uCellPwrSetRequested3gppPowerSaving net <> 0) /\
  (outcomes t = [NetworkBringUpError] <->
   (ret_uCellCfgGetRat net = MY_RAT \/ ret_uCellCfgSetRatRank net = 0) /\
   ret_uCellPwrSetRequested3gppPowerSaving net = 0 /\
   ret_uNetworkUp net <> 0) /\
  (outcomes t = [Agreed] \/ outcomes t = [TimedOut] <->
   (ret_uCellCfgGetRat net = MY_RAT \/ ret_uCellCfgSetRatRank net = 0) /\
   ret_uCellPwrSetRequested3gppPowerSaving net = 0 /\
   ret_uNetworkUp net = 0).
Proof.
  intros t.
  destruct (session_from set) as (n & _ & _ & Hout & _).
  fold t in Hout. rewrite Hout. unfold session_outcome, on_my_rat.
  destruct (Z.eqb_spec (ret_uCellCfgGetRat net) MY_RAT) as [Hrat|Hrat];
    destruct (Z.eqb_spec (ret_uCellCfgSetRatRank net) 0) as [Hrank|Hrank];
    destruct (Z.eqb_spec (ret_uCellPwrSetRequested3gppPowerSaving net) 0)
      as [Hreq|Hreq];
    destruct (Z.eqb_spec (ret_uNetworkUp net) 0) as [Hup|Hup];
    cbn [orb];
    try destruct (set_before_wait set || agreed_during 0 n
                  || agreed_at After_wait);
    repeat split; intros;
    repeat match goal with
           | H : _ /\ _ |- _ => destruct H
           | H : _ \/ _ |- _ => destruct H
           end;
    try discriminate; try contradiction; try congruence; tauto.
Qed.

(** X7.  A session that logs the timed-out outcome has made exactly 30
    suspends and leaves [x] at 30: the loop is never given up early. *)
Theorem timed_out_only_after_30_suspends (set : bool) :
  outcomes (trace (snd (session (entry set)))) = [TimedOut] ->
  suspend_cycles (trace (snd (session (entry set)))) = 30%nat /\
  fst (session (entry set)) = 30.
Proof.
  intros Hout.
  destruct (session_from set) as (n & _ & Hcalls & Hout' & Hx & Hw).
  rewrite Hout' in Hout. injection Hout as Hout.
  unfold session_outcome in Hout.
  assert (Henter : enters_wait = true).
  { unfold enters_wait, request_ok.
    destruct on_my_rat; [| discriminate].
    destruct (ret_uCellPwrSetRequested3gppPowerSaving net =? 0);
      [| discriminate].
    destruct (ret_uNetworkUp net =? 0); [reflexivity | discriminate]. }
  destruct (Hw Henter) as (_ & Hexit & Hiter).
  assert (Hclear : set_before_wait set || agreed_during 0 n = false).
  { pose proof Henter as He. unfold enters_wait, request_ok in He.
    apply andb_prop in He. destruct He as [He Hup].
    apply andb_prop in He. destruct He as [Hmy Hreq].
    rewrite Hmy, Hreq, Hup in Hout.
    destruct (set_before_wait set || agreed_during 0 n); [| reflexivity].
    cbn [orb] in Hout. discriminate. }
  assert (Hn : n = 30%nat) by (eapply cycles_when_never_set; eassumption).
  subst n.
  rewrite suspend_cycles_api, Hcalls, suspend_cycles_session_calls, Hx.
  unfold session_x. rewrite Henter.
  unfold enters_wait, request_ok in Henter.
  apply andb_prop in Henter. destruct Henter as [Henter _].
  apply andb_prop in Henter. destruct Henter as [Hmy _].
  rewrite Hmy. split; reflexivity.
Qed.

(* ----------------------------------------------------------------- *)
(** ** Further properties of the calls and of the internal-test lines *)

Lemma count_occ_upcalls e l :
  plain e = true -> count_occ event_eq_dec (upcalls l) e = 0%nat.
Proof.
  intros He. induction l as [|d l IH]; [reflexivity |].
  change (upcalls (d :: l)) with (upcall d ++ upcalls l).
  unfold upcall. rewrite count_occ_app, IH.
  rewrite !count_occ_cons_neq, count_occ_nil;
    [reflexivity | |]; intros <-; discriminate.
Qed.

Lemma count_occ_cycles_trace e x n :
  plain e = true -> count_occ event_eq_dec (cycles_trace x n) e = 0%nat.
Proof.
  intros He. revert x. induction n as [|n IH]; intros x; [reflexivity |].
  cbn [cycles_trace].
  rewrite count_occ_cons_neq by (intros <-; discriminate).
  now rewrite count_occ_app, count_occ_upcalls, IH.
Qed.

Ltac count_plain :=
  unfold occurrences;
  repeat first
    [ rewrite count_occ_app
    | rewrite count_occ_upcalls by reflexivity
    | rewrite count_occ_cycles_trace by reflexivity
    | rewrite count_occ_cons_eq by reflexivity
    | rewrite count_occ_cons_neq by congruence
    | rewrite count_occ_nil ].

Lemma no_assertion_in_session_events set n b :
  occurrences (Ev_U_PORT_TEST_ASSERT b) (session_events set n) = 0%nat.
Proof.
  unfold session_events.
  destruct (set_before_wait set || agreed_during 0 n
            || agreed_at After_wait);
    branches; count_plain; reflexivity.
Qed.

Lemma session_x_negative n :
  (session_x n <? 0)
  = negb on_my_rat || (ret_uCellPwrSetRequested3gppPowerSaving net <? 0).
Proof.
  unfold session_x, enters_wait, request_ok.
  destruct on_my_rat; cbn [negb orb andb]; [| reflexivity].
  destruct (Z.eqb_spec (ret_uCellPwrSetRequested3gppPowerSaving net) 0)
    as [Hreq|Hreq]; cbn [andb]; [| reflexivity].
  destruct (ret_uNetworkUp net =? 0).
  - rewrite Hreq. cbn. apply Z.ltb_ge. lia.
  - reflexivity.
Qed.

(** X1.  The internal-test build, and only it, makes the final-state
    assertion, once; the condition it asserts is true exactly when the
    request was never made (the RAT could not be set), or the request
    returned a negative value, or the flag is set when the session ends.
    So it is false for a session that times out, for one whose bring-up
    fails and for one whose request returns a positive value, unless a
    callback has set the flag. *)
Theorem final_state_assertion_condition (set b : bool) :
  let passes :=
    negb on_my_rat
    || (ret_uCellPwrSetRequested3gppPowerSaving net <? 0)
    || g3gppPowerSavingSet (snd (session (entry set))) in
  occurrences (Ev_U_PORT_TEST_ASSERT b)
    (trace (snd (exampleCellPowerSaving3gpp (entry set))))
  = if test_cell_module cfg && test_assert cfg && Bool.eqb b passes
    then 1%nat else 0%nat.
Proof.
  intros passes. unfold exampleCellPowerSaving3gpp.
  rewrite bind_run, test_cleanup_trace.
  destruct (session_from set) as (n & Ht & _ & _ & Hx & _).
  rewrite Hx, session_x_negative. fold passes. rewrite Ht.
  unfold occurrences. rewrite !count_occ_app.
  fold (occurrences (Ev_U_PORT_TEST_ASSERT b) (session_events set n)).
  rewrite no_assertion_in_session_events.
  assert (Hcleanup : count_occ event_eq_dec cleanup_calls
                       (Ev_U_PORT_TEST_ASSERT b) = 0%nat).
  { unfold cleanup_calls.
    destruct (cleanup_uCellPwrRebootIsRequired net); count_plain;
      reflexivity. }
  destruct (test_cell_module cfg && test_assert cfg); cbn [andb].
  - assert (Htail : count_occ event_eq_dec
                      (if g3gppPowerSavingSet (snd (session (entry set)))
                       then cleanup_calls else [])
                      (Ev_U_PORT_TEST_ASSERT b) = 0%nat)
      by (destruct (g3gppPowerSavingSet (snd (session (entry set))));
          [exact Hcleanup | reflexivity]).
    rewrite Htail.
    destruct b, passes; cbn [Bool.eqb]; count_plain; reflexivity.
  - reflexivity.
Qed.

Lemma test_cleanup_flag x s :
  g3gppPowerSavingSet (snd (test_cleanup x s)) = g3gppPowerSavingSet s.
Proof.
  unfold test_cleanup, EXAMPLE_FINAL_STATE, uPortInit, uNetworkInit,
    uPortDeinit.
  destruct (test_cell_module cfg), (test_assert cfg),
    (g3gppPowerSavingSet s) eqn:Hset,
    (cleanup_uCellPwrRebootIsRequired net) eqn:Hreboot;
    repeat first [ run_step | rewrite emit_flag | rewrite Hset
                 | rewrite Hreboot ];
    congruence.
Qed.

(** X2.  What the whole test function calls beyond the session: nothing,
    unless it is built for internal testing and the session ends with
    the flag set; then a second initialisation and [uNetworkAdd], the
    request with [onNotOff = false] and both times -1 on the handle just
    added, the reboot query on that handle and the reboot if it answers
    true, and a second teardown pair.  These lines never write the flag:
    the test function ends with the flag as the session left it. *)
Theorem cleanup_switches_power_saving_off (s : state) :
  let h := cleanup_uNetworkAdd net in
  api_calls (trace (snd (exampleCellPowerSaving3gpp s)))
  = api_calls (trace (snd (session s)))
    ++ (if test_cell_module cfg && test_assert cfg
           && g3gppPowerSavingSet (snd (session s))
        then [Ev_uPortInit; Ev_uNetworkInit; Ev_uNetworkAdd;
              Ev_uCellPwrSetRequested3gppPowerSaving h MY_RAT false (-1) (-1);
              Ev_uCellPwrRebootIsRequired h]
             ++ (if cleanup_uCellPwrRebootIsRequired net
                 then [Ev_uCellPwrReboot h] else [])
             ++ [Ev_uNetworkDeinit; Ev_uPortDeinit]
        else []) /\
  g3gppPowerSavingSet (snd (exampleCellPowerSaving3gpp s))
  = g3gppPowerSavingSet (snd (session s)).
Proof.
  intros h. split.
  - apply exampleCellPowerSaving3gpp_calls.
  - unfold exampleCellPowerSaving3gpp. rewrite bind_run.
    apply test_cleanup_flag.
Qed.

(** X8.  Every call of the session that takes a network handle is made
    on the handle [uNetworkAdd] returned, whatever its value: the example
    does not test it. *)
Theorem session_uses_added_handle (set : bool) :
  Forall (fun e => forall h, handle_of e = Some h -> h = ret_uNetworkAdd net)
         (api_calls (trace (snd (session (entry set))))).
Proof.
  destruct (session_from set) as (n & _ & Hcalls & _).
  rewrite Hcalls. unfold session_calls. apply Forall_forall.
  intros e Hin h Hh.
  branches; cbn [app] in Hin;
    repeat match goal with
           | H : In _ (_ :: _) |- _ => destruct H as [H|H]
           | H : In _ (_ ++ _) |- _ =>
               apply in_app_or in H; destruct H as [H|H]
           | H : In _ (repeat _ _) |- _ => apply repeat_spec in H
           | H : In _ [] |- _ => destruct H
           end;
    subst e; cbn in Hh; congruence.
Qed.

(** X9.  The power-saving request is made at most once in a session,
    exactly when the RAT is or could be made [MY_RAT], and always for
    [MY_RAT] with [onNotOff = true], an active time of 60 and a periodic
    wake-up of 14400, on the handle added. *)
Theorem request_made_once_with_fixed_arguments
    (set : bool) (h rat : Z) (on : bool) (active periodic : Z) :
  occurrences (Ev_uCellPwrSetRequested3gppPowerSaving h rat on active
                 periodic)
    (trace (snd (session (entry set))))
  = if on_my_rat && (h =? ret_uNetworkAdd net) && (rat =? MY_RAT) && on
       && (active =? 60) && (periodic =? 14400)
    then 1%nat else 0%nat.
Proof.
  destruct (session_from set) as (n & _ & Hcalls & _).
  rewrite occurrences_api, Hcalls by reflexivity.
  unfold session_calls.
  change ACTIVE_TIME_SECONDS with 60.
  change PERIODIC_WAKEUP_SECONDS with 14400.
  destruct (Z.eqb_spec h (ret_uNetworkAdd net)) as [->|Hh];
    destruct (Z.eqb_spec rat MY_RAT) as [->|Hr];
    destruct on;
    destruct (Z.eqb_spec active 60) as [->|Ha];
    destruct (Z.eqb_spec periodic 14400) as [->|Hp];
    branches; count_events; reflexivity.
Qed.

(** X10.  How long a session waits.  When the wait loop is reached with
    the flag already set, by a callback entered during an earlier call or
    before the session, no suspend is made; when it is reached with the
    flag clear and the suspend made at counter [k], below 30, is the
    first during which a callback sets it, exactly [k + 1] suspends are
    made.  Either way the agreed outcome is logged. *)
Theorem suspends_until_first_agreement (set : bool) :
  enters_wait = true ->
  let t := trace (snd (session (entry set))) in
  (set_before_wait set = true ->
   suspend_cycles t = 0%nat /\ outcomes t = [Agreed]) /\
  (forall k : nat,
     (k < 30)%nat ->
     set_before_wait set || agreed_during 0 k = false ->
     agreed_at (At_uPortTaskBlock (Z.of_nat k)) = true ->
     suspend_cycles t = S k /\ outcomes t = [Agreed]).
Proof.
  intros Henter t. split.
  - intros Hset.
    destruct (session_from set) as (n & _ & Hcalls & Hout & _ & Hw).
    fold t in Hcalls, Hout.
    destruct (Hw Henter) as (_ & _ & Hiter).
    assert (Hn : n = O).
    { destruct n as [|n]; [reflexivity |].
      destruct (Hiter O) as [Hc _]; [lia |].
      rewrite Hset in Hc. discriminate Hc. }
    subst n.
    rewrite suspend_cycles_api, Hcalls, Hout, suspend_cycles_session_calls,
      Henter.
    unfold session_outcome. rewrite Hset.
    unfold enters_wait, request_ok in Henter.
    apply andb_prop in Henter. destruct Henter as [Henter Hup].
    apply andb_prop in Henter. destruct Henter as [Hmy Hreq].
    rewrite Hmy, Hreq, Hup. split; reflexivity.
  - intros k Hk Hclear Hfirst.
    destruct (session_agreed_at_cycle set k Henter Hk Hclear Hfirst)
      as (Hn & _ & _ & Hout & _).
    split; assumption.
Qed.

Lemma reported_upcalls l :
  reported (upcalls l)
  = map (fun d => (onNotOff d, activeTimeSeconds d, periodicWakeupSeconds d))
        l.
Proof.
  induction l as [|d l IH]; [reflexivity |].
  change (reported (upcalls (d :: l)))
    with ((onNotOff d, activeTimeSeconds d, periodicWakeupSeconds d)
          :: reported (upcalls l)).
  now rewrite IH.
Qed.

Lemma reported_app t u : reported (t ++ u) = reported t ++ reported u.
Proof. apply flat_map_app. Qed.

Lemma delivered_app t u : delivered (t ++ u) = delivered t ++ delivered u.
Proof. apply flat_map_app. Qed.

Lemma logs_every_report_nil : logs_every_report [].
Proof. reflexivity. Qed.

Lemma logs_every_report_app t u :
  logs_every_report t -> logs_every_report u -> logs_every_report (t ++ u).
Proof.
  unfold logs_every_report. intros Ht Hu.
  now rewrite reported_app, delivered_app, map_app, Ht, Hu.
Qed.

Lemma logs_every_report_cons e t :
  reported [e] = [] -> delivered [e] = [] ->
  logs_every_report t -> logs_every_report (e :: t).
Proof.
  intros Hr Hd Ht. change (e :: t) with ([e] ++ t).
  apply logs_every_report_app; [| exact Ht].
  unfold logs_every_report. now rewrite Hr, Hd.
Qed.

Lemma logs_every_report_upcalls l : logs_every_report (upcalls l).
Proof.
  unfold logs_every_report. now rewrite reported_upcalls, delivered_upcalls.
Qed.

Lemma logs_every_report_cycles_trace x n :
  logs_every_report (cycles_trace x n).
Proof.
  revert x. induction n as [|n IH]; intros x; [reflexivity |].
  cbn [cycles_trace]. apply logs_every_report_cons; try reflexivity.
  apply logs_every_report_app; [apply logs_every_report_upcalls | apply IH].
Qed.

(** X11.  [callback] logs every report it is given, whether or not the
    values pass its test: the lines it has logged in a session are the
    values of the entries made in that session, one line for each, in
    order. *)
Theorem callback_logs_every_report (set : bool) :
  reported (trace (snd (session (entry set))))
  = map (fun d => (onNotOff d, activeTimeSeconds d, periodicWakeupSeconds d))
        (delivered (trace (snd (session (entry set))))).
Proof.
  destruct (session_from set) as (n & Ht & _).
  rewrite Ht. change (logs_every_report (session_events set n)).
  unfold session_events.
  destruct (set_before_wait set || agreed_during 0 n
            || agreed_at After_wait);
    branches;
    repeat first
      [ apply logs_every_report_nil
      | apply logs_every_report_upcalls
      | apply logs_every_report_cycles_trace
      | apply logs_every_report_app
      | apply logs_every_report_cons; [reflexivity | reflexivity |] ].
Qed.

Lemma agreed_outcome_sets_flag (set : bool) :
  outcomes (trace (snd (session (entry set)))) = [Agreed] ->
  g3gppPowerSavingSet (snd (session (entry set))) = true.
Proof.
  intros Hout.
  destruct (session_from set) as (n & _ & _ & Hout' & _ & Hw).
  rewrite Hout' in Hout. injection Hout as Hout.
  unfold session_outcome in Hout.
  assert (Henter : enters_wait = true).
  { unfold enters_wait, request_ok.
    destruct on_my_rat; [| discriminate].
    destruct (ret_uCellPwrSetRequested3gppPowerSaving net =? 0);
      [| discriminate].
    destruct (ret_uNetworkUp net =? 0); [reflexivity | discriminate]. }
  destruct (Hw Henter) as (Hflag & _). rewrite Hflag.
  unfold enters_wait, request_ok in Henter.
  apply andb_prop in Henter. destruct Henter as [Henter Hup].
  apply andb_prop in Henter. destruct Henter as [Hmy Hreq].
  rewrite Hmy, Hreq, Hup in Hout.
  destruct (set_before_wait set || agreed_during 0 n
            || agreed_at After_wait); [reflexivity | discriminate].
Qed.

Lemma exampleCellPowerSaving3gpp_flag s :
  g3gppPowerSavingSet (snd (exampleCellPowerSaving3gpp s))
  = g3gppPowerSavingSet (snd (session s)).
Proof.
  unfold exampleCellPowerSaving3gpp. rewrite bind_run.
  apply test_cleanup_flag.
Qed.

(* ----------------------------------------------------------------- *)
(** ** The latch and the agreed outcome *)






End Example.

(** C4.  When the wait loop is reached with the flag clear and the flag
    is set by a delivery during the fifth suspend and not before, the
    loop makes exactly 5 suspends, leaves [x] at 5, and the session logs
    the agreed outcome.  Any run with the same timing, whatever else the
    collaborator does, gives the same count and the same outcome; and if
    the test function is entered again with the flag as this run left it,
    the outcome logged is again the agreed one. *)
Theorem agreed_after_5_cycles
    (U_CELL_NET_RAT_CATM1 : Z) (net : collaborator) (set : bool) :
  set_at_fifth_suspend U_CELL_NET_RAT_CATM1 net set ->
  let r := session U_CELL_NET_RAT_CATM1 net (entry set) in
  (suspend_cycles (trace (snd r)) = 5%nat /\
   occurrences (Ev_uPortTaskBlock 1000) (trace (snd r)) = 5%nat /\
   fst r = 5 /\
   outcomes (trace (snd r)) = [Agreed] /\
   g3gppPowerSavingSet (snd r) = true) /\
  (forall net' set',
     set_at_fifth_suspend U_CELL_NET_RAT_CATM1 net' set' ->
     let r' := session U_CELL_NET_RAT_CATM1 net' (entry set') in
     suspend_cycles (trace (snd r')) = suspend_cycles (trace (snd r)) /\
     fst r' = fst r /\
     outcomes (trace (snd r')) = outcomes (trace (snd r))) /\
  outcomes
    (trace (snd (session U_CELL_NET_RAT_CATM1 net
                   (entry (g3gppPowerSavingSet (snd r))))))
  = [Agreed].
Proof.
  assert (Hrun : forall net' set',
            set_at_fifth_suspend U_CELL_NET_RAT_CATM1 net' set' ->
            let r' := session U_CELL_NET_RAT_CATM1 net' (entry set') in
            suspend_cycles (trace (snd r')) = 5%nat /\
            occurrences (Ev_uPortTaskBlock 1000) (trace (snd r')) = 5%nat /\
            fst r' = 5 /\
            outcomes (trace (snd r')) = [Agreed] /\
            g3gppPowerSavingSet (snd r') = true).
  { intros net' set' (Henter & Hbefore & Hduring & Hfifth) r'.
    apply (session_agreed_at_cycle U_CELL_NET_RAT_CATM1 net' set' 4);
      try assumption; [lia | now rewrite Hbefore, Hduring]. }
  intros Hfifth r.
  destruct (Hrun net set Hfifth) as (Hn & Hocc & Hx & Hout & Hflag).
  fold r in Hn, Hocc, Hx, Hout, Hflag.
  split; [| split].
  - auto.
  - intros net' set' Hfifth' r'.
    destruct (Hrun net' set' Hfifth') as (Hn' & _ & Hx' & Hout' & _).
    fold r' in Hn', Hx', Hout'. rewrite Hn, Hx, Hout. auto.
  - rewrite Hflag.
    apply session_entered_with_flag_set. apply Hfifth.
Qed.

(* ----------------------------------------------------------------- *)
(** ** The properties at the sample collaborators *)

(** The silent network: 30 suspends, then the timed-out outcome. *)
Lemma timeout_after_30_cycles_witness :
  suspend_cycles
    (trace (snd (session sample_rat silent_network initial_state)))
  = 30%nat /\
  occurrences (Ev_uPortTaskBlock 1000)
    (trace (snd (session sample_rat silent_network initial_state)))
  = 30%nat /\
  fst (session sample_rat silent_network initial_state) = 30 /\
  outcomes (trace (snd (session sample_rat silent_network initial_state)))
  = [TimedOut].
Proof.
  apply (timeout_after_30_cycles sample_rat silent_network).
  - left. reflexivity.
  - reflexivity.
  - reflexivity.
  - vm_compute. reflexivity.
Defined.

(** Agreement during the fifth suspend: 5 suspends, then the agreed
    outcome. *)
Lemma agreed_after_5_cycles_witness :
  set_at_fifth_suspend sample_rat network_agreeing_at_fifth_suspend false /\
  suspend_cycles
    (trace (snd (session sample_rat network_agreeing_at_fifth_suspend
                   (entry false))))
  = 5%nat.
Proof.
  assert (H : set_at_fifth_suspend sample_rat
                network_agreeing_at_fifth_suspend false)
    by (repeat split; reflexivity).
  split; [exact H |].
  exact (proj1 (proj1 (agreed_after_5_cycles sample_rat
                         network_agreeing_at_fifth_suspend false H))).
Defined.

(** The refused rank change: no power-saving request. *)
Lemma rat_failure_skips_request_witness :
  api_calls (trace (snd (session sample_rat network_refusing_rat
                           (entry false))))
  = [Ev_uPortInit; Ev_uNetworkInit; Ev_uNetworkAdd;
     Ev_uCellPwrSet3gppPowerSavingCallback 7; Ev_uCellCfgGetRat 7 0;
     Ev_uCellCfgSetRatRank 7 sample_rat 0; Ev_uNetworkDeinit;
     Ev_uPortDeinit].
Proof.
  apply (rat_failure_skips_request sample_rat network_refusing_rat false).
  - discriminate.
  - discriminate.
Defined.

(** The failed bring-up: no suspend, one teardown. *)
Lemma bring_up_failure_skips_wait_witness :
  suspend_cycles
    (trace (snd (session sample_rat network_failing_bring_up (entry false))))
  = 0%nat.
Proof.
  apply (bring_up_failure_skips_wait sample_rat network_failing_bring_up
           false).
  discriminate.
Defined.

(** The whole trace of the test function, built for internal testing,
    against the network that agrees during the fifth suspend. *)
Example exampleCellPowerSaving3gpp_agreeing_at_fifth_suspend :
  trace (snd (exampleCellPowerSaving3gpp sample_rat (mkBuild true true)
                network_agreeing_at_fifth_suspend initial_state))
  = [Ev_uPortInit; Ev_uNetworkInit; Ev_uNetworkAdd;
     Ev_uPortLog (Msg_added_network 7);
     Ev_uCellPwrSet3gppPowerSavingCallback 7; Ev_uCellCfgGetRat 7 0;
     Ev_uPortLog (Msg_requesting 60 14400);
     Ev_uCellPwrSetRequested3gppPowerSaving 7 10 true 60 14400;
     Ev_uCellPwrRebootIsRequired 7; Ev_uCellPwrReboot 7;
     Ev_uPortLog Msg_bringing_up; Ev_uNetworkUp 7;
     Ev_callback disagreeing;
     Ev_uPortLog (Msg_power_saving_is true 59 14400);
     Ev_uPortTaskBlock 1000; Ev_uPortTaskBlock 1000; Ev_uPortTaskBlock 1000;
     Ev_uPortTaskBlock 1000; Ev_uPortTaskBlock 1000;
     Ev_callback agreeing;
     Ev_uPortLog (Msg_power_saving_is true 60 14400);
     Ev_uPortLog Msg_agreed; Ev_uPortLog Msg_taking_down;
     Ev_uNetworkDown 7; Ev_uNetworkDeinit; Ev_uPortDeinit;
     Ev_uPortLog Msg_done;
     Ev_U_PORT_TEST_ASSERT true;
     Ev_uPortInit; Ev_uNetworkInit; Ev_uNetworkAdd;
     Ev_uCellPwrSetRequested3gppPowerSaving 8 10 false (-1) (-1);
     Ev_uCellPwrRebootIsRequired 8; Ev_uNetworkDeinit; Ev_uPortDeinit].
Proof. vm_compute. reflexivity. Qed.

(** Against the network that refuses the rank change, the assertion of
    the internal-test build passes on [x < 0]. *)
Example exampleCellPowerSaving3gpp_refusing_rat :
  trace (snd (exampleCellPowerSaving3gpp sample_rat (mkBuild true true)
                network_refusing_rat initial_state))
  = [Ev_uPortInit; Ev_uNetworkInit; Ev_uNetworkAdd;
     Ev_uPortLog (Msg_added_network 7);
     Ev_uCellPwrSet3gppPowerSavingCallback 7; Ev_uCellCfgGetRat 7 0;
     Ev_uCellCfgSetRatRank 7 10 0;
     Ev_uPortLog (Msg_unable_to_set_rat 10);
     Ev_uNetworkDeinit; Ev_uPortDeinit; Ev_uPortLog Msg_done;
     Ev_U_PORT_TEST_ASSERT true].
Proof. vm_compute. reflexivity. Qed.

(** A report that comes after the wait loop has given up still sets the
    flag: the session has logged the timed-out outcome, and ends with the
    flag set. *)
Example late_delivery_sets_flag_after_timeout :
  outcomes (trace (snd (session sample_rat network_agreeing_late
                          initial_state)))
  = [TimedOut] /\
  suspend_cycles (trace (snd (session sample_rat network_agreeing_late
                                initial_state)))
  = 30%nat /\
  g3gppPowerSavingSet (snd (session sample_rat network_agreeing_late
                              initial_state))
  = true.
Proof. vm_compute. repeat split; reflexivity. Qed.

(* ----------------------------------------------------------------- *)
(** ** The test function run again in the same process *)

(** X3.  The flag is never reset.  Once a run of the test function has
    logged the agreed outcome, the function returns with the flag set,
    whatever its build; and any later run in the same process, entered
    with the flag as that run left it, that reaches the wait loop makes no
    suspend and logs the agreed outcome, even against a collaborator that
    never reports. *)
Theorem stale_agreement_in_second_run
    (U_CELL_NET_RAT_CATM1 : Z) (cfg : build) (net1 net2 : collaborator)
    (set : bool) :
  outcomes (trace (snd (session U_CELL_NET_RAT_CATM1 net1 (entry set))))
  = [Agreed] ->
  enters_wait U_CELL_NET_RAT_CATM1 net2 = true ->
  let left :=
    g3gppPowerSavingSet
      (snd (exampleCellPowerSaving3gpp U_CELL_NET_RAT_CATM1 cfg net1
              (entry set))) in
  left = true /\
  suspend_cycles
    (trace (snd (session U_CELL_NET_RAT_CATM1 net2 (entry left))))
  = 0%nat /\
  outcomes (trace (snd (session U_CELL_NET_RAT_CATM1 net2 (entry left))))
  = [Agreed].
Proof.
  intros Hagreed Henter left.
  assert (Hleft : left = true).
  { subst left. rewrite exampleCellPowerSaving3gpp_flag.
    now apply agreed_outcome_sets_flag. }
  split; [exact Hleft |]. rewrite Hleft.
  now apply session_entered_with_flag_set.
Qed.

(** The second run against the silent network, after the run that agreed
    during the fifth suspend. *)
Lemma stale_agreement_in_second_run_witness :
  suspend_cycles
    (trace (snd (session sample_rat silent_network
                   (entry (g3gppPowerSavingSet
                             (snd (exampleCellPowerSaving3gpp sample_rat
                                     (mkBuild true true)
                                     network_agreeing_at_fifth_suspend
                                     (entry false)))))))) = 0%nat.
Proof.
  apply (stale_agreement_in_second_run sample_rat (mkBuild true true)
           network_agreeing_at_fifth_suspend silent_network false).
  - vm_compute. reflexivity.
  - reflexivity.
Defined.

(** The silent network logs the timed-out outcome, after 30 suspends. *)
Lemma timed_out_only_after_30_suspends_witness :
  suspend_cycles
    (trace (snd (session sample_rat silent_network (entry false))))
  = 30%nat.
Proof.
  apply (timed_out_only_after_30_suspends sample_rat silent_network false).
  vm_compute. reflexivity.
Defined.

(** The network that agrees during the fifth suspend: 5 suspends. *)
Lemma suspends_until_first_agreement_witness :
  suspend_cycles
    (trace (snd (session sample_rat network_agreeing_at_fifth_suspend
                   (entry false))))
  = 5%nat.
Proof.
  apply (suspends_until_first_agreement sample_rat
           network_agreeing_at_fifth_suspend false eq_refl) with (k := 4%nat).
  - lia.
  - reflexivity.
  - reflexivity.
Defined.

(* ----------------------------------------------------------------- *)
(** ** A qualifying delivery and the agreed outcome do not go together *)

